(** * phone-validator-express: the validation and formatting engine

    A shallow embedding of [src/index.js]: the pattern registry, the
    validator [validatePhoneNumber], the canonicaliser [formatPhoneNumber],
    the renderer [formatPhoneNumberWithOptions] with its helpers, and the
    convenience entry point [formatPhone].

    JavaScript strings are sequences of UTF-16 code units; the regular
    expressions of the registry carry no [u] flag, so they too work on code
    units.  A string is therefore a list of code units, each an [N]. *)

From Stdlib Require Import List NArith ZArith Bool String Ascii Lia.
Import ListNotations.

(** ** Strings *)

Definition char := N.
Definition jstring := list char.

(** A string literal of the source (all of them are ASCII). *)
Definition js (s : string) : jstring :=
  map N_of_ascii (list_ascii_of_string s).

(** [a === b] on strings. *)
Fixpoint str_eqb (a b : jstring) : bool :=
  match a, b with
  | [], [] => true
  | x :: a', y :: b' => N.eqb x y && str_eqb a' b'
  | _, _ => false
  end.

(** [s.startsWith(p)] *)
Fixpoint startsWith (p s : jstring) : bool :=
  match p, s with
  | [], _ => true
  | x :: p', y :: s' => N.eqb x y && startsWith p' s'
  | _ :: _, [] => false
  end.

(** [s.includes(c)] for a one-character needle. *)
Definition includes (c : char) (s : jstring) : bool :=
  existsb (N.eqb c) s.

(** [s.substring(a)] and [s.substring(a, b)] for [a <= b]: both indices are
    clamped to the length, which [skipn] and [firstn] do as well. *)
Definition substring_from (a : nat) (s : jstring) : jstring := skipn a s.
Definition substring (a b : nat) (s : jstring) : jstring :=
  firstn (b - a) (skipn a s).

(** ** Character classes and regular expressions *)

(** A class is a union of inclusive ranges of code units. *)
Definition cclass := list (N * N).

Definition in_class (c : cclass) (x : char) : bool :=
  existsb (fun r => N.leb (fst r) x && N.leb x (snd r)) c.

Definition one (a : string) : cclass :=
  map (fun x => (x, x)) (js a).

(** [\d] *)
Definition digit : cclass := [(48, 57)]%N.
(** [[6-9]], [[2-9]], [[1-9]] *)
Definition d6_9 : cclass := [(54, 57)]%N.
Definition d2_9 : cclass := [(50, 57)]%N.
Definition d1_9 : cclass := [(49, 57)]%N.
(** [\s]: WhiteSpace and LineTerminator of ECMAScript: TAB, LF, VT, FF, CR,
    SP, NBSP, U+1680, U+2000..U+200A, U+2028, U+2029, U+202F, U+205F,
    U+3000, U+FEFF. *)
Definition space : cclass :=
  [(9, 13); (32, 32); (160, 160); (5760, 5760); (8192, 8202); (8232, 8233);
   (8239, 8239); (8287, 8287); (12288, 12288); (65279, 65279)]%N.
(** [[\s\-]] *)
Definition space_hyphen : cclass := space ++ one "-".
(** [[\s\-\(\)]] *)
Definition space_hyphen_parens : cclass := space ++ one "-" ++ one "(" ++ one ")".
(** [[-. ]] *)
Definition separator : cclass := one "-" ++ one "." ++ one " ".

(** The fragment of the regular-expression language the registry uses.
    Capturing groups do not matter to [RegExp.prototype.test] and are
    dropped; bounded repetition is unfolded by [rep] and [rep_range]. *)
Inductive regex :=
| Eps
| Chr (c : cclass)
| Seq (r1 r2 : regex)
| Alt (r1 r2 : regex)
| Opt (r : regex).

(** [r{n}] *)
Fixpoint rep (n : nat) (r : regex) : regex :=
  match n with
  | O => Eps
  | S n' => Seq r (rep n' r)
  end.

(** [r{n,m}] for [n <= m] *)
Definition rep_range (n m : nat) (r : regex) : regex :=
  Seq (rep n r) (rep (m - n) (Opt r)).

(** A literal string. *)
Fixpoint lit_chars (s : jstring) : regex :=
  match s with
  | [] => Eps
  | x :: s' => Seq (Chr [(x, x)]) (lit_chars s')
  end.
Definition lit (s : string) : regex := lit_chars (js s).

(** Concatenation of the items of a pattern, left to right. *)
Fixpoint cat (l : list regex) : regex :=
  match l with
  | [] => Eps
  | r :: l' => Seq r (cat l')
  end.

(** [residuals r s]: the backtracking matcher.  It lists, in the priority
    order of the JavaScript engine, what is left of [s] after each way [r]
    can consume a prefix of it. *)
Fixpoint residuals (r : regex) (s : jstring) : list jstring :=
  match r with
  | Eps => [s]
  | Chr c =>
      match s with
      | x :: s' => if in_class c x then [s'] else []
      | [] => []
      end
  | Seq r1 r2 => flat_map (residuals r2) (residuals r1 s)
  | Alt r1 r2 => residuals r1 s ++ residuals r2 s
  | Opt r1 => residuals r1 s ++ [s]
  end.

Definition is_empty (s : jstring) : bool :=
  match s with [] => true | _ => false end.

(** [/^r$/.test(s)]: some way of matching consumes the whole string. *)
Definition test (r : regex) (s : jstring) : bool :=
  existsb is_empty (residuals r s).

(** [s.replace(/[c]/g, '')] *)
Definition remove_all (c : cclass) (s : jstring) : jstring :=
  filter (fun x => negb (in_class c x)) s.

(** The language of a pattern, as a relation: the specification of [test]. *)
Inductive lang : regex -> jstring -> Prop :=
| lang_eps : lang Eps []
| lang_chr c x : in_class c x = true -> lang (Chr c) [x]
| lang_seq r1 r2 s1 s2 : lang r1 s1 -> lang r2 s2 -> lang (Seq r1 r2) (s1 ++ s2)
| lang_alt_l r1 r2 s : lang r1 s -> lang (Alt r1 r2) s
| lang_alt_r r1 r2 s : lang r2 s -> lang (Alt r1 r2) s
| lang_opt_none r : lang (Opt r) []
| lang_opt_some r s : lang r s -> lang (Opt r) s.

(** ** JavaScript values and completions *)

Inductive value :=
| VUndefined
| VNull
| VBool (b : bool)
| VNumber (n : Z)
| VNaN
| VString (s : jstring)
| VObject (id : N).   (* any object, array or function *)

(** ToBoolean *)
Definition truthy (v : value) : bool :=
  match v with
  | VUndefined | VNull | VNaN => false
  | VBool b => b
  | VNumber n => negb (Z.eqb n 0)
  | VString s => negb (is_empty s)
  | VObject _ => true
  end.

(** [typeof v === 'string'] *)
Definition typeof_string (v : value) : bool :=
  match v with VString _ => true | _ => false end.

(** [a || b] returns one of its operands. *)
Definition js_or (a b : value) : value := if truthy a then a else b.

Inductive exn :=
| TypeError
| Raised (v : value).

Inductive outcome (A : Type) :=
| Ret (a : A)
| Throw (e : exn).
Arguments Ret {A} a.
Arguments Throw {A} e.

Definition bind {A B} (m : outcome A) (k : A -> outcome B) : outcome B :=
  match m with
  | Ret a => k a
  | Throw e => Throw e
  end.

Notation "x <- m ;; k" := (bind m (fun x => k))
  (at level 61, m at next level, right associativity).

(** The receiver of a String method: calling [replace], [startsWith] and the
    like on anything but a string is a TypeError. *)
Definition as_string (v : value) : outcome jstring :=
  match v with
  | VString s => Ret s
  | _ => Throw TypeError
  end.

(** [v.replace(/[c]/g, '')] *)
Definition replace_all (c : cclass) (v : value) : outcome jstring :=
  s <- as_string v ;; Ret (remove_all c s).

(** ** The pattern registry: [PHONE_PATTERNS] *)

Record PatternSet := {
  mobile : option regex;
  landline : option regex;
  withCountryCode : option regex
}.

(** A value stored in the registry: a pattern set, or (for the key
    [INTERNATIONAL]) a bare regular expression. *)
Inductive registry_value :=
| Patterns (p : PatternSet)
| Pattern (r : regex).

(** [/^[6-9]\d{9}$/] *)
Definition IN_mobile : regex := cat [Chr d6_9; rep 9 (Chr digit)].
(** [/^[2-9]\d{7,8}$/] *)
Definition IN_landline : regex := cat [Chr d2_9; rep_range 7 8 (Chr digit)].
(** [/^\+91[6-9]\d{9}$/] *)
Definition IN_withCountryCode : regex :=
  cat [lit "+91"; Chr d6_9; rep 9 (Chr digit)].
(** [/^\(?([2-9]\d{2})\)?[-. ]?([2-9]\d{2})[-. ]?(\d{4})$/] *)
Definition US_mobile : regex :=
  cat [Opt (lit "("); cat [Chr d2_9; rep 2 (Chr digit)]; Opt (lit ")");
       Opt (Chr separator); cat [Chr d2_9; rep 2 (Chr digit)];
       Opt (Chr separator); rep 4 (Chr digit)].
(** [/^\+1[2-9]\d{2}[2-9]\d{6}$/] *)
Definition US_withCountryCode : regex :=
  cat [lit "+1"; Chr d2_9; rep 2 (Chr digit); Chr d2_9; rep 6 (Chr digit)].
(** [/^(\+44\s?7\d{3}|\(?07\d{3}\)?)\s?\d{3}\s?\d{3}$/] *)
Definition UK_mobile : regex :=
  cat [Alt (cat [lit "+44"; Opt (Chr space); lit "7"; rep 3 (Chr digit)])
           (cat [Opt (lit "("); lit "07"; rep 3 (Chr digit); Opt (lit ")")]);
       Opt (Chr space); rep 3 (Chr digit); Opt (Chr space); rep 3 (Chr digit)].
(** [/^(\+44\s?[1-9]\d{2}|\(?0[1-9]\d{2}\)?)\s?\d{3}\s?\d{4}$/] *)
Definition UK_landline : regex :=
  cat [Alt (cat [lit "+44"; Opt (Chr space); Chr d1_9; rep 2 (Chr digit)])
           (cat [Opt (lit "("); lit "0"; Chr d1_9; rep 2 (Chr digit);
                 Opt (lit ")")]);
       Opt (Chr space); rep 3 (Chr digit); Opt (Chr space); rep 4 (Chr digit)].
(** [/^\+[1-9]\d{1,14}$/] *)
Definition INTERNATIONAL : regex :=
  cat [lit "+"; Chr d1_9; rep_range 1 14 (Chr digit)].

(** The three pattern sets; a pattern the source leaves out is [None]. *)
Definition IN_patterns : PatternSet :=
  {| mobile := Some IN_mobile;
     landline := Some IN_landline;
     withCountryCode := Some IN_withCountryCode |}.
Definition US_patterns : PatternSet :=
  {| mobile := Some US_mobile;
     landline := None;
     withCountryCode := Some US_withCountryCode |}.
Definition UK_patterns : PatternSet :=
  {| mobile := Some UK_mobile;
     landline := Some UK_landline;
     withCountryCode := None |}.

(** The object literal, its keys in insertion order. *)
Definition PHONE_PATTERNS : list (jstring * registry_value) :=
  [ (js "IN", Patterns IN_patterns);
    (js "US", Patterns US_patterns);
    (js "UK", Patterns UK_patterns);
    (js "INTERNATIONAL", Pattern INTERNATIONAL) ].

(** [PHONE_PATTERNS] is an ordinary object, so [PHONE_PATTERNS[key]] also
    finds what it inherits from [Object.prototype]: functions, and for
    [__proto__] the prototype object itself.  All of them are truthy and
    none has a [mobile], [landline] or [withCountryCode] property.  Each is
    listed with its conversion to a string (as Node prints it) and its
    [length] property (0 where it has none), which is all the code below
    can observe of it. *)
Definition native (name : string) : jstring :=
  js "function " ++ js name ++ js "() { [native code] }".

Definition Object_prototype : list (jstring * (jstring * nat)) :=
  [ (js "constructor", (native "Object", 1));
    (js "hasOwnProperty", (native "hasOwnProperty", 1));
    (js "isPrototypeOf", (native "isPrototypeOf", 1));
    (js "propertyIsEnumerable", (native "propertyIsEnumerable", 1));
    (js "toLocaleString", (native "toLocaleString", 0));
    (js "toString", (native "toString", 0));
    (js "valueOf", (native "valueOf", 0));
    (js "__proto__", (js "[object Object]", 0));
    (js "__defineGetter__", (native "__defineGetter__", 2));
    (js "__defineSetter__", (native "__defineSetter__", 2));
    (js "__lookupGetter__", (native "__lookupGetter__", 1));
    (js "__lookupSetter__", (native "__lookupSetter__", 1)) ].

Inductive property (A : Type) :=
| Own (a : A)
| Inherited (text : jstring) (len : nat)
| Missing.
Arguments Own {A} a.
Arguments Inherited {A} text len.
Arguments Missing {A}.

Fixpoint own_property {A} (o : list (jstring * A)) (key : jstring) : option A :=
  match o with
  | [] => None
  | (k, a) :: o' => if str_eqb k key then Some a else own_property o' key
  end.

(** [o[key]] on an object literal. *)
Definition get {A} (o : list (jstring * A)) (key : jstring) : property A :=
  match own_property o key with
  | Some a => Own a
  | None =>
      match own_property Object_prototype key with
      | Some (text, len) => Inherited text len
      | None => Missing
      end
  end.

(** [patterns.mobile], [patterns.landline], [patterns.withCountryCode] on
    whatever the lookup found. *)
Definition field (f : PatternSet -> option regex)
    (patterns : property registry_value) : option regex :=
  match patterns with
  | Own (Patterns p) => f p
  | _ => None
  end.

(** [p && p.test(s)] *)
Definition and_test (p : option regex) (s : jstring) : value :=
  match p with
  | Some r => VBool (test r s)
  | None => VUndefined
  end.

(** [p ? p.test(s) : false] *)
Definition test_or_false (p : option regex) (s : jstring) : value :=
  match p with
  | Some r => VBool (test r s)
  | None => VBool false
  end.

(** ** Format metadata: [FORMAT_PLACEHOLDERS] *)

Record FormatInfo := {
  placeholder_mobile : jstring;
  placeholder_landline : jstring;
  examples_mobile : list jstring;
  examples_landline : list jstring
}.

Definition FORMAT_PLACEHOLDERS : list (jstring * FormatInfo) :=
  [ (js "IN", {| placeholder_mobile := js "9876543210";
                 placeholder_landline := js "02212345678";
                 examples_mobile := map js ["9876543210"; "+919876543210"]%string;
                 examples_landline := map js ["02212345678"; "+912212345678"]%string |});
    (js "US", {| placeholder_mobile := js "(555) 234-5678";
                 placeholder_landline := js "(555) 123-4567";
                 examples_mobile := map js ["(555) 234-5678"; "555-234-5678";
                                            "5552345678"; "+15552345678"]%string;
                 examples_landline := map js ["(555) 123-4567"; "555-123-4567";
                                              "5551234567"; "+15551234567"]%string |});
    (js "UK", {| placeholder_mobile := js "07123456789";
                 placeholder_landline := js "02012345678";
                 examples_mobile := map js ["07123456789"; "+447123456789"]%string;
                 examples_landline := map js ["02012345678"; "+442012345678"]%string |}) ].

(** Every (country, class, examples list) of the table. *)
Definition example_lists : list (jstring * jstring * list jstring) :=
  flat_map (fun e =>
              [ (fst e, js "mobile", examples_mobile (snd e));
                (fst e, js "landline", examples_landline (snd e)) ])
           FORMAT_PLACEHOLDERS.

(** ** The validator and the canonicaliser *)

Record ValidationResult := {
  isValid : value;
  error : value;
  formatted : value;
  errorType : value
}.

(** [formatPhoneNumber(phoneNumber, country)] *)
Definition formatPhoneNumber (phoneNumber country : jstring) : jstring :=
  if str_eqb country (js "IN") then
    if startsWith (js "+91") phoneNumber then phoneNumber
    else js "+91" ++ phoneNumber
  else if str_eqb country (js "US") then
    if startsWith (js "+1") phoneNumber then phoneNumber
    else if includes 40%N phoneNumber && includes 41%N phoneNumber then
      let digits := remove_all space_hyphen_parens phoneNumber in
      js "+1" ++ digits
    else if Nat.eqb (List.length phoneNumber) 10 then js "+1" ++ phoneNumber
    else phoneNumber
  else if str_eqb country (js "UK") then
    if startsWith (js "+44") phoneNumber then phoneNumber
    else if startsWith (js "0") phoneNumber then
      js "+44" ++ substring_from 1 phoneNumber
    else js "+44" ++ phoneNumber
  else
    if startsWith (js "+") phoneNumber then phoneNumber
    else js "+" ++ phoneNumber.

(** The acceptance decision of [validatePhoneNumber]: the value its local
    [isValid] holds after the [if (type === ...)] chain. *)
Definition accepts (patterns : property registry_value) (type cleaned : jstring)
  : value :=
  if str_eqb type (js "mobile") then
    js_or (and_test (field mobile patterns) cleaned)
          (and_test (field withCountryCode patterns) cleaned)
  else if str_eqb type (js "landline") then
    test_or_false (field landline patterns) cleaned
  else if str_eqb type (js "any") then
    js_or (js_or (and_test (field mobile patterns) cleaned)
                 (and_test (field landline patterns) cleaned))
          (and_test (field withCountryCode patterns) cleaned)
  else VBool false.

(** [validatePhoneNumber(phoneNumber, country, type)].  The country and the
    type are strings, as the function documents them; the phone number is
    any value. *)
Definition validatePhoneNumber (phoneNumber : value) (country type : jstring)
  : outcome ValidationResult :=
  if negb (truthy phoneNumber) || negb (typeof_string phoneNumber) then
    Ret {| isValid := VBool false;
           error := VString (js "Phone number is required and must be a string");
           formatted := VNull;
           errorType := VString (js "required") |}
  else
    cleaned <- replace_all space_hyphen phoneNumber ;;
    match get PHONE_PATTERNS country with
    | Missing =>
        Ret {| isValid := VBool false;
               error := VString (js "Unsupported country code: " ++ country);
               formatted := VNull;
               errorType := VString (js "invalidFormat") |}
    | patterns =>
        let isValid := accepts patterns type cleaned in
        let formatted :=
          if truthy isValid then formatPhoneNumber cleaned country
          else cleaned in
        Ret {| isValid := isValid;
               error := if truthy isValid then VNull
                        else VString (js "Invalid " ++ type
                                      ++ js " phone number for " ++ country);
               formatted := if truthy isValid then VString formatted else VNull;
               errorType := if truthy isValid then VNull
                            else VString (js "invalidFormat") |}
    end.

(** ** The renderer *)

(** The [countryCodes] table of [extractNationalNumber]. *)
Definition countryCodes : list (jstring * jstring) :=
  [ (js "IN", js "+91"); (js "US", js "+1"); (js "UK", js "+44") ].

(** [extractNationalNumber(phoneNumber, country)] *)
Definition extractNationalNumber (phoneNumber country : jstring) : jstring :=
  let strip_us :=
    if str_eqb country (js "US") && includes 40%N phoneNumber
       && includes 41%N phoneNumber
    then remove_all space_hyphen_parens phoneNumber
    else phoneNumber in
  match get countryCodes country with
  | Own countryCode =>
      if startsWith countryCode phoneNumber
      then substring_from (List.length countryCode) phoneNumber
      else strip_us
  | Inherited text len =>
      if startsWith text phoneNumber then substring_from len phoneNumber
      else strip_us
  | Missing => strip_us
  end.

(** [formatPhoneNumberAuto(phoneNumber, country)] *)
Definition formatPhoneNumberAuto (phoneNumber country : jstring) : jstring :=
  let nationalNumber := extractNationalNumber phoneNumber country in
  if str_eqb country (js "IN") then
    js "+91 " ++ nationalNumber
  else if str_eqb country (js "US") then
    if Nat.eqb (List.length nationalNumber) 10 then
      js "+1 (" ++ substring 0 3 nationalNumber ++ js ") "
        ++ substring 3 6 nationalNumber ++ js "-"
        ++ substring_from 6 nationalNumber
    else phoneNumber
  else if str_eqb country (js "UK") then
    if Nat.eqb (List.length nationalNumber) 10 then
      js "+44 " ++ substring 0 4 nationalNumber ++ js " "
        ++ substring 4 7 nationalNumber ++ js " "
        ++ substring_from 7 nationalNumber
    else phoneNumber
  else phoneNumber.

(** The [customFormatter] argument: a function of the number and the
    country, which returns any value or throws, or something that is not a
    function ([null], [undefined], or any other value). *)
Inductive formatter :=
| Function (f : jstring -> jstring -> outcome value)
| NotAFunction (v : value).

(** [formatPhoneNumberWithOptions(phoneNumber, country, format,
    customFormatter)].  Its two callers pass the validator's formatted
    string, so the number is a string here. *)
Definition formatPhoneNumberWithOptions (phoneNumber country format : jstring)
    (customFormatter : formatter) : outcome value :=
  if is_empty phoneNumber then Ret (VString phoneNumber)
  else
    match str_eqb format (js "custom"), customFormatter with
    | true, Function f => f phoneNumber country
    | _, _ =>
        let nationalNumber := extractNationalNumber phoneNumber country in
        if str_eqb format (js "international") then Ret (VString phoneNumber)
        else if str_eqb format (js "national") then Ret (VString nationalNumber)
        else if str_eqb format (js "raw") then
          Ret (VString (remove_all space_hyphen_parens phoneNumber))
        else (* case 'auto': default: *)
          Ret (VString (formatPhoneNumberAuto phoneNumber country))
    end.

(** [formatPhone(phoneNumber, country, format, customFormatter)] *)
Definition formatPhone (phoneNumber : value) (country format : jstring)
    (customFormatter : formatter) : outcome value :=
  if negb (truthy phoneNumber) then Ret phoneNumber
  else
    validation <- validatePhoneNumber phoneNumber country (js "any") ;;
    if negb (truthy (isValid validation)) then Ret phoneNumber
    else
      let validatedNumber := js_or (formatted validation) phoneNumber in
      number <- as_string validatedNumber ;;
      formatPhoneNumberWithOptions number country format customFormatter.

(** [getSupportedCountries()]: [Object.keys(PHONE_PATTERNS)], the own keys
    in insertion order. *)
Definition getSupportedCountries : list jstring :=
  map fst PHONE_PATTERNS.

(** ** Notions of the specification used in the statements *)

(** The closed set of country codes of the specification. *)
Definition CountryCode : list jstring := map js ["IN"; "US"; "UK"]%string.

(** The phone classes of the specification. *)
Definition PhoneClass : list jstring :=
  map js ["mobile"; "landline"; "any"]%string.

(** A string in canonical international form for a country: the country's
    dial code, then digits and nothing else. *)
Definition is_canonical (country s : jstring) : bool :=
  match own_property countryCodes country with
  | Some dial =>
      startsWith dial s && forallb (in_class digit) (skipn (List.length dial) s)
  | None => false
  end.

(** A well-formed [ValidationResult]: [isValid] is a boolean, [error] and
    [formatted] are a string or [null], [errorType] is ['required'],
    ['invalidFormat'] or [null]. *)
Definition string_or_null (v : value) : bool :=
  match v with VString _ | VNull => true | _ => false end.

Definition well_formed (r : ValidationResult) : bool :=
  match isValid r with VBool _ => true | _ => false end
  && string_or_null (error r)
  && string_or_null (formatted r)
  && match errorType r with
     | VNull => true
     | VString t => str_eqb t (js "required") || str_eqb t (js "invalidFormat")
     | _ => false
     end.

(** A call that passes no custom formatter ([null], the default of
    [formatPhone]). *)
Definition no_formatter : formatter := NotAFunction VNull.

(** The cleaning step of the validator and the raw mode of the renderer. *)
Definition clean (s : jstring) : jstring := remove_all space_hyphen s.
Definition raw_form (s : jstring) : jstring := remove_all space_hyphen_parens s.

(** What [validatePhoneNumber] returns for a missing phone number, for an
    unsupported country and for a rejected number. *)
Definition required_result : ValidationResult :=
  {| isValid := VBool false;
     error := VString (js "Phone number is required and must be a string");
     formatted := VNull;
     errorType := VString (js "required") |}.

Definition unsupported_result (country : jstring) : ValidationResult :=
  {| isValid := VBool false;
     error := VString (js "Unsupported country code: " ++ country);
     formatted := VNull;
     errorType := VString (js "invalidFormat") |}.

Definition rejected_result (verdict : value) (type country : jstring)
  : ValidationResult :=
  {| isValid := verdict;
     error := VString (js "Invalid " ++ type ++ js " phone number for "
                       ++ country);
     formatted := VNull;
     errorType := VString (js "invalidFormat") |}.

Definition accepted_result (verdict : value) (number : jstring)
  : ValidationResult :=
  {| isValid := verdict;
     error := VNull;
     formatted := VString number;
     errorType := VNull |}.

(** Whether an optional pattern matches a string. *)
Definition matches (p : option regex) (s : jstring) : bool :=
  match p with Some r => test r s | None => false end.

(** A string validates under a country and a class. *)
Definition validates (x country type : jstring) : Prop :=
  exists r, validatePhoneNumber (VString x) country type = Ret r
            /\ isValid r = VBool true.

(** ** The lookup functions of the module *)

(** [getPhonePatterns(country)]: [PHONE_PATTERNS[country] || null].  What
    the lookup finds is an object or a function, hence truthy, and is
    returned as it is; [Missing] stands for the [null] that replaces
    [undefined]. *)
Definition getPhonePatterns (country : jstring) : property registry_value :=
  get PHONE_PATTERNS country.

(** [getCountryFormatInfo(country)]: [FORMAT_PLACEHOLDERS[country] || null],
    with [Missing] for [null] as above. *)
Definition getCountryFormatInfo (country : jstring) : property FormatInfo :=
  get FORMAT_PLACEHOLDERS country.

(** The [examples] object of a country's record. *)
Definition examples_object (info : FormatInfo) : list (jstring * list jstring) :=
  [ (js "mobile", examples_mobile info);
    (js "landline", examples_landline info) ].

(** [getFormatExamples(country, type)].  A record of the table has an
    [examples] object; what the country lookup inherits from
    [Object.prototype] has no [examples] member, so the function returns
    [null] for it.  [Missing] stands for [null]; an array, even an empty
    one, is truthy. *)
Definition getFormatExamples (country type : jstring)
  : property (list jstring) :=
  match get FORMAT_PLACEHOLDERS country with
  | Own countryData => get (examples_object countryData) type
  | Inherited _ _ => Missing
  | Missing => Missing
  end.

(** ** The middleware *)

(** [s.trim()]: white space and line terminators (the characters of [\s])
    are removed at both ends. *)
Fixpoint trimStart (s : jstring) : jstring :=
  match s with
  | x :: s' => if in_class space x then trimStart s' else s
  | [] => []
  end.

Definition trim (s : jstring) : jstring :=
  rev (trimStart (rev (trimStart s))).

(** The class [ValidationResult] of the source (the record of that name
    above is the validator's result): a list of errors, with [isEmpty],
    [array] and [addError]. *)
Record FieldError := {
  fe_field : jstring;
  fe_message : jstring;
  fe_value : value
}.

(** An element of what [array()] returns:
    [{ type, msg, value, path, location }]. *)
Record ErrorView := {
  ev_type : jstring;
  ev_msg : jstring;
  ev_value : value;
  ev_path : jstring;
  ev_location : jstring
}.

Definition isEmpty (errors : list FieldError) : bool :=
  Nat.eqb (List.length errors) 0.

Definition array (errors : list FieldError) : list ErrorView :=
  map (fun e => {| ev_type := js "field";
                   ev_msg := fe_message e;
                   ev_value := fe_value e;
                   ev_path := fe_field e;
                   ev_location := js "body" |}) errors.

Definition addError (errors : list FieldError) (field message : jstring)
    (v : value) : list FieldError :=
  errors ++ [ {| fe_field := field; fe_message := message; fe_value := v |} ].

(** The request, as far as the middleware touches it: [req.body], a plain
    object of parsed values (none of which has a [trim] method unless it is
    a string) or absent, and [req.validationErrors]. *)
Record request := {
  req_body : option (list (jstring * value));
  req_validationErrors : option (list FieldError)
}.

(** The body of the 400 response:
    [{ status: 'error', message: 'Validation failed', errors }]. *)
Record failure := {
  f_status : jstring;
  f_message : jstring;
  f_errors : list ErrorView
}.

Definition validation_failed (errors : list FieldError) : failure :=
  {| f_status := js "error";
     f_message := js "Validation failed";
     f_errors := array errors |}.

(** How a middleware ends: [next()], [next(error)], or
    [res.status(code).json(payload)]; each with the request as the
    middleware leaves it. *)
Inductive handled :=
| Next (req : request)
| NextError (e : exn) (req : request)
| Responded (code : N) (payload : failure) (req : request).

(** The merged message table [errors] of [phoneValidator]. *)
Record messages := {
  m_required : jstring;
  m_invalidFormat : jstring;
  m_invalidLength : jstring;
  m_empty : jstring;
  m_invalid : jstring
}.

(** What the middleware closes over: the destructured options and the
    message table.  (How [phoneValidator] builds the default texts of the
    table from the field name, the placeholder and the examples is not
    modelled; the table is taken as it is.)  [customMessage] is a string
    or [null]. *)
Record settings := {
  s_country : jstring;
  s_type : jstring;
  s_required : bool;
  s_customMessage : option jstring;
  s_format : jstring;
  s_customFormatter : formatter;
  s_errors : messages
}.

(** [customMessage || fallback] *)
Definition or_message (customMessage : option jstring) (fallback : jstring)
  : jstring :=
  match customMessage with
  | Some m => if is_empty m then fallback else m
  | None => fallback
  end.

(** [v === 'text'] *)
Definition is_string (v : value) (text : jstring) : bool :=
  match v with
  | VString s => str_eqb s text
  | _ => false
  end.

(** [o[key] = a] on an object whose own keys are listed in [o]. *)
Fixpoint set_property {A} (o : list (jstring * A)) (key : jstring) (a : A)
  : list (jstring * A) :=
  match o with
  | [] => [(key, a)]
  | (k, b) :: o' =>
      if str_eqb k key then (k, a) :: o' else (k, b) :: set_property o' key a
  end.

(** What the [try] block of the middleware throws: a [ValidationError]
    (message, field, value) or anything else. *)
Inductive thrown :=
| ValidationError (message field : jstring) (v : value)
| OtherError (e : exn).

Inductive attempt :=
| Completed (req : request)
| Thrown (t : thrown).

(** The [try] block of the function [phoneValidator] returns; [Completed]
    is its call of [next()]. *)
Definition phoneValidator_try (fieldName : jstring) (o : settings)
    (req : request) : attempt :=
  match req_body req with
  | None => Thrown (OtherError TypeError)
  | Some body =>
      match get body fieldName with
      | Inherited _ _ =>
          (* a function or object of [Object.prototype]: truthy, and
             [value.trim] is not a function *)
          Thrown (OtherError TypeError)
      | found =>
          let value := match found with Own v => v | _ => VUndefined end in
          let missing :=
            if negb (s_required o) then Completed req
            else Thrown (ValidationError
                           (or_message (s_customMessage o)
                                       (m_required (s_errors o)))
                           fieldName value) in
          if negb (truthy value) then missing
          else
            match as_string value with
            | Throw e => Thrown (OtherError e)
            | Ret text =>
                if is_empty (trim text) then missing
                else if is_empty (trim text) then
                  Thrown (ValidationError
                            (or_message (s_customMessage o)
                                        (m_empty (s_errors o)))
                            fieldName value)
                else
                  match validatePhoneNumber value (s_country o) (s_type o) with
                  | Throw e => Thrown (OtherError e)
                  | Ret result =>
                      if negb (truthy (isValid result)) then
                        let errorMessage :=
                          if is_string (errorType result) (js "required")
                          then m_required (s_errors o)
                          else if is_string (errorType result)
                                    (js "invalidLength")
                          then m_invalidLength (s_errors o)
                          else if is_string (errorType result)
                                    (js "invalidFormat")
                          then m_invalidFormat (s_errors o)
                          else or_message (s_customMessage o)
                                          (m_invalid (s_errors o)) in
                        Thrown (ValidationError errorMessage fieldName value)
                      else if truthy (isValid result)
                              && truthy (formatted result) then
                        match as_string (formatted result) with
                        | Throw e => Thrown (OtherError e)
                        | Ret number =>
                            match formatPhoneNumberWithOptions number
                                    (s_country o) (s_format o)
                                    (s_customFormatter o) with
                            | Throw e => Thrown (OtherError e)
                            | Ret shown =>
                                Completed
                                  {| req_body :=
                                       Some (set_property body fieldName shown);
                                     req_validationErrors :=
                                       req_validationErrors req |}
                            end
                        end
                      else Completed req
                  end
            end
      end
  end.

(** The function [phoneValidator(fieldName, options)] returns, applied to
    a request: the [try] block and its [catch]. *)
Definition phoneValidator (fieldName : jstring) (o : settings)
    (req : request) : handled :=
  match phoneValidator_try fieldName o req with
  | Completed req' => Next req'
  | Thrown (ValidationError message field v) =>
      let validationResult := addError [] field message v in
      Responded 400 (validation_failed validationResult)
        {| req_body := req_body req;
           req_validationErrors := Some validationResult |}
  | Thrown (OtherError e) => NextError e req
  end.

(** [validateRequest(req, res, next)] *)
Definition validateRequest (req : request) : handled :=
  match req_validationErrors req with
  | Some errors =>
      if negb (isEmpty errors)
      then Responded 400 (validation_failed errors) req
      else Next req
  | None => Next req
  end.

(** ** Measures of a pattern used in the statements *)

(** The least and the greatest length of a string a pattern matches. *)
Fixpoint min_len (r : regex) : nat :=
  match r with
  | Eps => 0
  | Chr _ => 1
  | Seq r1 r2 => min_len r1 + min_len r2
  | Alt r1 r2 => Nat.min (min_len r1) (min_len r2)
  | Opt _ => 0
  end.

Fixpoint max_len (r : regex) : nat :=
  match r with
  | Eps => 0
  | Chr _ => 1
  | Seq r1 r2 => max_len r1 + max_len r2
  | Alt r1 r2 => Nat.max (max_len r1) (max_len r2)
  | Opt r1 => max_len r1
  end.

(** Every range of [c] lies within a range of [d]. *)
Definition subclass (c d : cclass) : bool :=
  forallb (fun r => existsb (fun r' => N.leb (fst r') (fst r)
                                       && N.leb (snd r) (snd r')) d) c.

(** Every character class of the pattern lies within [d]. *)
Fixpoint regex_within (d : cclass) (r : regex) : bool :=
  match r with
  | Eps => true
  | Chr c => subclass c d
  | Seq r1 r2 | Alt r1 r2 => regex_within d r1 && regex_within d r2
  | Opt r1 => regex_within d r1
  end.

(** Every string the pattern matches contains a character of [c]. *)
Fixpoint needs (c : cclass) (r : regex) : bool :=
  match r with
  | Eps => false
  | Chr d => subclass d c
  | Seq r1 r2 => needs c r1 || needs c r2
  | Alt r1 r2 => needs c r1 && needs c r2
  | Opt _ => false
  end.

(** The pattern without the options and alternatives that need a
    character of [c]: what is left of it on strings free of [c]. *)
Fixpoint prune (c : cclass) (r : regex) : regex :=
  match r with
  | Eps => Eps
  | Chr d => Chr d
  | Seq r1 r2 => Seq (prune c r1) (prune c r2)
  | Alt r1 r2 =>
      if needs c r1 then prune c r2
      else if needs c r2 then prune c r1
      else Alt (prune c r1) (prune c r2)
  | Opt r1 => if needs c r1 then Eps else Opt (prune c r1)
  end.

(** A string free of the characters of [c]. *)
Definition free_of (c : cclass) (s : jstring) : bool :=
  forallb (fun x => negb (in_class c x)) s.

(** Parentheses and the dot: the punctuation the patterns admit and the
    cleaning step of the validator keeps. *)
Definition parens_dot : cclass := one "(" ++ one ")" ++ one ".".

(** A field value the middleware treats as absent: falsy, or a string of
    white space only. *)
Definition blank (v : value) : bool :=
  negb (truthy v)
  || match v with VString s => is_empty (trim s) | _ => false end.

(** Settings for the examples: the defaults of [phoneValidator] for the
    field ['phone'], with short messages. *)
Definition sample_messages : messages :=
  {| m_required := js "phone is required";
     m_invalidFormat := js "Invalid mobile phone number for IN";
     m_invalidLength := js "Phone number must be valid length for IN";
     m_empty := js "phone cannot be empty";
     m_invalid := js "Please provide a valid phone" |}.

Definition sample_settings (required : bool) (customMessage : option jstring)
  : settings :=
  {| s_country := js "IN";
     s_type := js "mobile";
     s_required := required;
     s_customMessage := customMessage;
     s_format := js "auto";
     s_customFormatter := no_formatter;
     s_errors := sample_messages |}.

(** * Properties *)

Arguments clean : simpl never.
Arguments raw_form : simpl never.
Arguments remove_all : simpl never.
Arguments in_class : simpl never.
Arguments test : simpl never.
Arguments accepts : simpl never.
Arguments formatPhoneNumber : simpl never.
Arguments js : simpl never.

(** ** Strings *)

Lemma str_eqb_eq (a b : jstring) : str_eqb a b = true <-> a = b.
Proof.
  revert b; induction a as [|x a IH]; intros [|y b]; simpl;
    try (split; [discriminate | discriminate]); try tauto.
  rewrite andb_true_iff, N.eqb_eq, IH.
  split; [intros [-> ->]; reflexivity | intros H; inversion H; auto].
Qed.

Lemma str_eqb_neq (a b : jstring) : str_eqb a b = false <-> a <> b.
Proof.
  rewrite <- str_eqb_eq. destruct (str_eqb a b); split; congruence.
Qed.

Lemma startsWith_app (p t : jstring) : startsWith p (p ++ t) = true.
Proof.
  induction p as [|x p IH]; simpl; [reflexivity|].
  rewrite N.eqb_refl; exact IH.
Qed.

Lemma startsWith_split (p s : jstring) :
  startsWith p s = true -> s = p ++ skipn (List.length p) s.
Proof.
  revert s; induction p as [|x p IH]; intros s H; simpl in *; [reflexivity|].
  destruct s as [|y s]; [discriminate|].
  apply andb_true_iff in H as [Hxy Hp]. apply N.eqb_eq in Hxy; subst y.
  f_equal; apply IH; exact Hp.
Qed.

(** ** The matcher against the language of a pattern *)

Lemma residuals_sound (r : regex) :
  forall s t, In t (residuals r s) -> exists p, lang r p /\ s = p ++ t.
Proof.
  induction r as [|c|r1 IH1 r2 IH2|r1 IH1 r2 IH2|r IH]; intros s t H; simpl in H.
  - destruct H as [<-|[]]. exists []; split; [constructor | reflexivity].
  - destruct s as [|x s]; [contradiction|].
    destruct (in_class c x) eqn:E; [|contradiction].
    destruct H as [<-|[]]. exists [x]; split; [constructor; exact E | reflexivity].
  - apply in_flat_map in H as (m & Hm & Ht).
    destruct (IH1 _ _ Hm) as (p1 & L1 & ->).
    destruct (IH2 _ _ Ht) as (p2 & L2 & ->).
    exists (p1 ++ p2); split; [constructor; assumption | apply app_assoc].
  - apply in_app_or in H as [H|H].
    + destruct (IH1 _ _ H) as (p & L & ->). exists p; split; [apply lang_alt_l|]; auto.
    + destruct (IH2 _ _ H) as (p & L & ->). exists p; split; [apply lang_alt_r|]; auto.
  - apply in_app_or in H as [H|H].
    + destruct (IH _ _ H) as (p & L & ->). exists p; split; [apply lang_opt_some|]; auto.
    + destruct H as [<-|[]]. exists []; split; [constructor | reflexivity].
Qed.

Lemma residuals_complete (r : regex) (p : jstring) :
  lang r p -> forall t, In t (residuals r (p ++ t)).
Proof.
  induction 1 as [|c x E|r1 r2 s1 s2 _ IH1 _ IH2|r1 r2 s _ IH|r1 r2 s _ IH
                  |r|r s _ IH]; intros t; simpl.
  - left; reflexivity.
  - rewrite E; left; reflexivity.
  - apply in_flat_map. exists (s2 ++ t); split.
    + rewrite <- app_assoc; apply IH1.
    + apply IH2.
  - apply in_or_app; left; apply IH.
  - apply in_or_app; right; apply IH.
  - apply in_or_app; right; left; reflexivity.
  - apply in_or_app; left; apply IH.
Qed.

(** [test] decides membership in the language of the pattern. *)
Theorem test_lang (r : regex) (s : jstring) : test r s = true <-> lang r s.
Proof.
  unfold test; rewrite existsb_exists; split.
  - intros (t & Hin & Ht). destruct t; [|discriminate].
    destruct (residuals_sound _ _ _ Hin) as (p & L & ->).
    rewrite app_nil_r; exact L.
  - intros L. exists []; split; [|reflexivity].
    pose proof (residuals_complete r s L []) as H.
    rewrite app_nil_r in H; exact H.
Qed.

(** ** The validator, case by case *)

Lemma validate_not_string (v : value) (country type : jstring) :
  typeof_string v = false ->
  validatePhoneNumber v country type = Ret required_result.
Proof.
  intros H; unfold validatePhoneNumber.
  rewrite H, orb_true_r; reflexivity.
Qed.

Lemma validate_empty (country type : jstring) :
  validatePhoneNumber (VString []) country type = Ret required_result.
Proof. reflexivity. Qed.

Lemma validate_string (raw country type : jstring) :
  raw <> [] ->
  validatePhoneNumber (VString raw) country type =
  match get PHONE_PATTERNS country with
  | Missing => Ret (unsupported_result country)
  | patterns =>
      let verdict := accepts patterns type (clean raw) in
      Ret (if truthy verdict
           then accepted_result verdict (formatPhoneNumber (clean raw) country)
           else rejected_result verdict type country)
  end.
Proof.
  intros H; destruct raw as [|x raw]; [contradiction|].
  unfold validatePhoneNumber; simpl negb; simpl orb; cbv iota.
  unfold replace_all, as_string, bind.
  destruct (get PHONE_PATTERNS country); try reflexivity;
    cbv zeta; fold (clean (x :: raw));
    destruct (truthy (accepts _ type (clean (x :: raw)))); reflexivity.
Qed.

(** The validator returns normally on every input. *)
Lemma validate_returns (v : value) (country type : jstring) :
  exists r, validatePhoneNumber v country type = Ret r.
Proof.
  destruct v as [| |b|n| |s|id];
    try (eexists; apply validate_not_string; reflexivity).
  destruct s as [|x s]; [eexists; apply validate_empty|].
  rewrite validate_string by discriminate.
  destruct (get PHONE_PATTERNS country); eexists; reflexivity.
Qed.

(** Whatever the lookup found, the acceptance decision is [true], [false]
    or [undefined]. *)
Lemma and_test_cases (p : option regex) (s : jstring) :
  and_test p s = VBool true \/ and_test p s = VBool false
  \/ and_test p s = VUndefined.
Proof. destruct p as [r|]; simpl; [destruct (test r s)|]; auto. Qed.

Lemma accepts_cases (patterns : property registry_value) (type s : jstring) :
  accepts patterns type s = VBool true \/ accepts patterns type s = VBool false
  \/ accepts patterns type s = VUndefined.
Proof.
  unfold accepts.
  destruct (str_eqb type (js "mobile")); [|destruct (str_eqb type (js "landline"));
    [|destruct (str_eqb type (js "any")); [|auto]]].
  - destruct (and_test_cases (field mobile patterns) s) as [E|[E|E]];
      rewrite E; unfold js_or; simpl; auto; apply and_test_cases.
  - unfold test_or_false. destruct (field landline patterns) as [r|]; auto.
    destruct (test r s); auto.
  - destruct (and_test_cases (field mobile patterns) s) as [E|[E|E]];
      rewrite E; unfold js_or at 2; simpl; auto;
      destruct (and_test_cases (field landline patterns) s) as [F|[F|F]];
      rewrite F; unfold js_or; simpl; auto; apply and_test_cases.
Qed.

Lemma truthy_accepts (patterns : property registry_value) (type s : jstring) :
  truthy (accepts patterns type s) = true <->
  accepts patterns type s = VBool true.
Proof.
  destruct (accepts_cases patterns type s) as [E|[E|E]]; rewrite E; simpl;
    split; congruence.
Qed.

(** What a successful validation tells about its input. *)
Lemma validate_valid_inv (v : value) (country type : jstring)
    (r : ValidationResult) :
  validatePhoneNumber v country type = Ret r ->
  isValid r = VBool true ->
  exists raw patterns,
    v = VString raw /\ raw <> []
    /\ get PHONE_PATTERNS country = patterns /\ patterns <> Missing
    /\ accepts patterns type (clean raw) = VBool true
    /\ r = accepted_result (VBool true) (formatPhoneNumber (clean raw) country).
Proof.
  intros Hv Hr.
  destruct v as [| |b|n| |s|id];
    try (rewrite validate_not_string in Hv by reflexivity;
         inversion Hv; subst r; discriminate).
  destruct s as [|x s];
    [rewrite validate_empty in Hv; inversion Hv; subst r; discriminate|].
  rewrite validate_string in Hv by discriminate.
  exists (x :: s), (get PHONE_PATTERNS country).
  generalize dependent (clean (x :: s)); intros c Hv.
  destruct (get PHONE_PATTERNS country) as [e|text len|] eqn:G;
    try (inversion Hv; subst r; discriminate);
    cbv zeta in Hv;
    destruct (truthy (accepts _ type c)) eqn:T;
    inversion Hv; subst r; simpl in Hr;
    try (apply truthy_accepts in T); try (rewrite Hr in T; discriminate);
    repeat split; try discriminate; try assumption;
    rewrite Hr; reflexivity.
Qed.

(** The part of the result invariant that holds on every input: the result
    is valid exactly when it carries no error, exactly when it carries a
    formatted string, and exactly when it carries no error type. *)
Lemma validate_result_shape (v : value) (country type : jstring)
    (r : ValidationResult) :
  validatePhoneNumber v country type = Ret r ->
  (isValid r = VBool true <-> error r = VNull)
  /\ (isValid r = VBool true <-> exists s, formatted r = VString s)
  /\ (isValid r = VBool true <-> errorType r = VNull)
  /\ (isValid r <> VBool true -> formatted r = VNull).
Proof.
  intros Hv.
  assert (Hreq : r = required_result ->
                 (isValid r = VBool true <-> error r = VNull)
                 /\ (isValid r = VBool true <-> exists s, formatted r = VString s)
                 /\ (isValid r = VBool true <-> errorType r = VNull)
                 /\ (isValid r <> VBool true -> formatted r = VNull)).
  { intros ->; simpl; repeat split; try discriminate; try tauto.
    intros [s H]; discriminate. }
  destruct v as [| |b|n| |s|id];
    try (rewrite validate_not_string in Hv by reflexivity;
         injection Hv as Hr; apply Hreq; auto).
  destruct s as [|x s];
    [rewrite validate_empty in Hv; injection Hv as Hr; apply Hreq; auto|].
  rewrite validate_string in Hv by discriminate.
  generalize dependent (clean (x :: s)); intros c Hv.
  destruct (get PHONE_PATTERNS country) as [e|text len|];
    try (inversion Hv; subst r; simpl; repeat split; try discriminate;
         try tauto; intros [t H]; discriminate);
    cbv zeta in Hv;
    destruct (truthy (accepts _ type c)) eqn:T;
    inversion Hv; subst r; simpl;
    try (apply truthy_accepts in T; rewrite T;
         repeat split; try tauto; try congruence; eauto);
    (assert (N : accepts _ type c <> VBool true)
       by (intro E; rewrite E in T; discriminate));
    repeat split; try tauto; try discriminate;
    intros [t H]; discriminate.
Qed.

(** ** The registry's keys *)

(** C4.  [getSupportedCountries()] returns the four own keys of
    [PHONE_PATTERNS] in insertion order: IN, US, UK and INTERNATIONAL.  The
    last one is not a country code of the closed set {IN, US, UK}, so the
    returned list is not that set. *)
Theorem getSupportedCountries_value :
  getSupportedCountries = map js ["IN"; "US"; "UK"; "INTERNATIONAL"]%string
  /\ In (js "INTERNATIONAL") getSupportedCountries
  /\ ~ In (js "INTERNATIONAL") CountryCode.
Proof.
  split; [reflexivity|]. split.
  - right; right; right; left; reflexivity.
  - intros H. repeat (destruct H as [H|H]; [discriminate H|]). exact H.
Qed.

(** A country that the lookup does not find is reported as unsupported,
    whatever the class. *)
Lemma validate_unsupported (raw country type : jstring) :
  raw <> [] ->
  get PHONE_PATTERNS country = Missing ->
  validatePhoneNumber (VString raw) country type =
  Ret (unsupported_result country).
Proof.
  intros Hraw Hget. rewrite validate_string by exact Hraw.
  rewrite Hget; reflexivity.
Qed.

(** C6.  At the country code ['constructor'], which is no key of the
    registry, the lookup [PHONE_PATTERNS[country]] finds the function
    inherited from [Object.prototype]; the validator goes on and reports a
    rejected number, with [isValid] undefined, where an unsupported country
    was to be reported. *)
Theorem validate_inherited_key :
  ~ In (js "constructor") getSupportedCountries
  /\ validatePhoneNumber (VString (js "9876543210")) (js "constructor")
       (js "mobile")
     = Ret (rejected_result VUndefined (js "mobile") (js "constructor"))
  /\ rejected_result VUndefined (js "mobile") (js "constructor")
     <> unsupported_result (js "constructor").
Proof.
  split; [|split].
  - intros H. repeat (destruct H as [H|H]; [discriminate H|]). exact H.
  - reflexivity.
  - discriminate.
Qed.

(** C5.  The validator never throws (see [validate_returns]), but the
    record it returns for a UK number rejected under class ['mobile'] has
    [isValid] undefined, not a boolean: [false || undefined] is
    [undefined], UK having no [withCountryCode] pattern. *)
Theorem validate_isValid_undefined :
  validatePhoneNumber (VString (js "123")) (js "UK") (js "mobile")
  = Ret (rejected_result VUndefined (js "mobile") (js "UK"))
  /\ well_formed (rejected_result VUndefined (js "mobile") (js "UK")) = false.
Proof. split; reflexivity. Qed.

(** C3.  The US number ['555.234.5678'] is accepted under class ['mobile']
    and its [formatted] field is the input itself, dots included: the
    result is valid and carries no error, but [formatted] is not in
    canonical international form. *)
Theorem validate_formatted_not_canonical :
  validatePhoneNumber (VString (js "555.234.5678")) (js "US") (js "mobile")
  = Ret (accepted_result (VBool true) (js "555.234.5678"))
  /\ is_canonical (js "US") (js "555.234.5678") = false.
Proof. split; reflexivity. Qed.

(** ** Unrecognised classes *)

Lemma not_a_class (type : jstring) :
  ~ In type PhoneClass ->
  str_eqb type (js "mobile") = false
  /\ str_eqb type (js "landline") = false
  /\ str_eqb type (js "any") = false.
Proof.
  intros H; repeat split; apply str_eqb_neq; intros ->; apply H; simpl; auto.
Qed.

Lemma accepts_unrecognised (patterns : property registry_value)
    (type s : jstring) :
  ~ In type PhoneClass -> accepts patterns type s = VBool false.
Proof.
  intros H; destruct (not_a_class _ H) as (E1 & E2 & E3).
  unfold accepts; rewrite E1, E2, E3; reflexivity.
Qed.

(** C10, as stated, fails at the empty string: the validator reports a
    missing phone number before it looks at the class. *)
Lemma unrecognised_class_empty_input :
  ~ (forall raw country type,
        In country CountryCode -> ~ In type PhoneClass ->
        validatePhoneNumber (VString raw) country type
        = Ret (rejected_result (VBool false) type country)).
Proof.
  intros H.
  specialize (H [] (js "IN") (js "Mobile")).
  rewrite validate_empty in H.
  assert (E : Ret required_result
              = Ret (rejected_result (VBool false) (js "Mobile") (js "IN"))).
  { apply H; [left; reflexivity|].
    intros C. repeat (destruct C as [C|C]; [discriminate C|]). exact C. }
  discriminate E.
Qed.

(** C10, amended.  For every non-empty string, every key of the registry
    and every class outside {mobile, landline, any}, the validator returns
    [isValid: false], the error ['Invalid <class> phone number for
    <country>'], [formatted: null] and [errorType: 'invalidFormat']. *)
Theorem unrecognised_class_rejected (raw country type : jstring) :
  raw <> [] ->
  In country getSupportedCountries ->
  ~ In type PhoneClass ->
  validatePhoneNumber (VString raw) country type
  = Ret (rejected_result (VBool false) type country).
Proof.
  intros Hraw Hc Ht. rewrite validate_string by exact Hraw.
  assert (G : get PHONE_PATTERNS country <> Missing).
  { repeat (destruct Hc as [<-|Hc]; [discriminate|]). destruct Hc. }
  destruct (get PHONE_PATTERNS country); [| |contradiction];
    cbv zeta; rewrite (accepts_unrecognised _ _ _ Ht); reflexivity.
Qed.

Lemma unrecognised_class_rejected_witness :
  validatePhoneNumber (VString (js "9876543210")) (js "IN") (js "Mobile")
  = Ret (rejected_result (VBool false) (js "Mobile") (js "IN")).
Proof.
  apply (unrecognised_class_rejected (js "9876543210") (js "IN") (js "Mobile")).
  - discriminate.
  - left; reflexivity.
  - intros C. repeat (destruct C as [C|C]; [discriminate C|]). exact C.
Defined.

(** ** The examples of the format metadata *)

(** No string validates as a US landline: the US pattern set has no
    landline pattern. *)
Lemma US_landline_never_valid (v : value) (r : ValidationResult) :
  validatePhoneNumber v (js "US") (js "landline") = Ret r ->
  isValid r = VBool false.
Proof.
  intros Hv.
  destruct v as [| |b|n| |s|id];
    try (rewrite validate_not_string in Hv by reflexivity;
         injection Hv as <-; reflexivity).
  destruct s as [|x s]; [rewrite validate_empty in Hv; injection Hv as <-; reflexivity|].
  rewrite validate_string in Hv by discriminate.
  injection Hv as <-; reflexivity.
Qed.

(** The examples of the other pairs.  Every example listed for IN/mobile,
    US/mobile, UK/mobile and UK/landline validates under its country and
    class; and no input at all validates as US/landline, for which the
    registry has no pattern. *)
Lemma examples_validate :
  (forall country type l x,
      In (country, type, l) example_lists ->
      (country, type) <> (js "IN", js "landline") ->
      (country, type) <> (js "US", js "landline") ->
      In x l ->
      validates x country type)
  /\ (forall v r,
        validatePhoneNumber v (js "US") (js "landline") = Ret r ->
        isValid r = VBool false).
Proof.
  split; [|apply US_landline_never_valid].
  intros country type l x Hin Hin_ll Hus_ll Hx.
  unfold example_lists in Hin; simpl in Hin.
  repeat (destruct Hin as [Hin|Hin];
          [injection Hin as <- <- <-;
           try (exfalso; apply Hin_ll; reflexivity);
           try (exfalso; apply Hus_ll; reflexivity);
           simpl in Hx;
           repeat (destruct Hx as [<-|Hx];
                   [eexists; split; [vm_compute; reflexivity | reflexivity]|]);
           destruct Hx
          |]).
  destruct Hin.
Qed.

Lemma examples_validate_witness :
  validates (js "02012345678") (js "UK") (js "landline").
Proof.
  apply (proj1 examples_validate (js "UK") (js "landline")
           (map js ["02012345678"; "+442012345678"]%string)).
  - right; right; right; right; right; left; reflexivity.
  - discriminate.
  - discriminate.
  - left; reflexivity.
Defined.

(** C1.  The code breaks the claim for the pair IN/landline: the format
    table lists examples for it, ['02212345678'] and ['+912212345678'], and
    the validator rejects every one of them under IN/landline, with
    [isValid: false].  The landline pattern [/^[2-9]\d{7,8}$/] wants 8 or 9
    digits that start with 2..9, so it accepts neither the leading [0] nor
    the leading [+91] of the listed forms. *)
Theorem examples_IN_landline_rejected (l : list jstring) (x : jstring) :
  In (js "IN", js "landline", l) example_lists ->
  In x l ->
  validatePhoneNumber (VString x) (js "IN") (js "landline")
  = Ret (rejected_result (VBool false) (js "landline") (js "IN")).
Proof.
  intros Hin Hx.
  unfold example_lists in Hin; simpl in Hin.
  repeat (destruct Hin as [Hin|Hin];
          [try (cbv in Hin; discriminate Hin);
           injection Hin as <-;
           destruct Hx as [<-|[<-|[]]]; reflexivity
          |]).
  destruct Hin.
Qed.

Lemma examples_IN_landline_rejected_witness :
  validatePhoneNumber (VString (js "02212345678")) (js "IN") (js "landline")
  = Ret (rejected_result (VBool false) (js "landline") (js "IN")).
Proof.
  apply (examples_IN_landline_rejected
           (map js ["02212345678"; "+912212345678"]%string)
           (js "02212345678")).
  - right; left; reflexivity.
  - left; reflexivity.
Defined.

(** ** The renderer *)

Lemma render_not_custom (s country format : jstring) (v : value) :
  s <> [] ->
  formatPhoneNumberWithOptions s country format (NotAFunction v) =
  if str_eqb format (js "international") then Ret (VString s)
  else if str_eqb format (js "national")
       then Ret (VString (extractNationalNumber s country))
  else if str_eqb format (js "raw") then Ret (VString (raw_form s))
  else Ret (VString (formatPhoneNumberAuto s country)).
Proof.
  intros H; destruct s as [|x s]; [contradiction|].
  unfold formatPhoneNumberWithOptions; simpl is_empty; cbv iota.
  destruct (str_eqb format (js "custom")); reflexivity.
Qed.

(** C2, as stated, fails: with mode ['custom'] and no formatter the
    renderer returns normally, and what it returns is the auto rendering. *)
Lemma custom_without_formatter_renders_auto :
  formatPhoneNumberWithOptions (js "+919876543210") (js "IN") (js "custom")
    no_formatter
  = Ret (VString (js "+91 9876543210"))
  /\ formatPhoneNumberWithOptions (js "+919876543210") (js "IN") (js "auto")
       no_formatter
     = Ret (VString (js "+91 9876543210")).
Proof. split; reflexivity. Qed.

(** C2, amended.  With mode ['custom'] and a formatter argument that is
    not a function (none at all, [null], or any other value) the renderer
    does not signal anything: it returns normally, with exactly the string
    that mode ['auto'] returns for the same number and country. *)
Theorem custom_without_formatter (s country : jstring) (v : value) :
  formatPhoneNumberWithOptions s country (js "custom") (NotAFunction v)
  = formatPhoneNumberWithOptions s country (js "auto") (NotAFunction v)
  /\ exists out,
       formatPhoneNumberWithOptions s country (js "custom") (NotAFunction v)
       = Ret (VString out).
Proof.
  destruct s as [|x s]; [split; [reflexivity | eexists; reflexivity]|].
  rewrite !render_not_custom by discriminate.
  split; [reflexivity | eexists; reflexivity].
Qed.

(** The national number of a UK string: what follows a leading [+44], or
    the whole string when there is none. *)
Lemma extractNationalNumber_UK (s : jstring) :
  extractNationalNumber s (js "UK")
  = if startsWith (js "+44") s then skipn 3 s else s.
Proof. reflexivity. Qed.

Lemma formatPhoneNumberAuto_UK (s : jstring) :
  formatPhoneNumberAuto s (js "UK")
  = let nationalNumber := extractNationalNumber s (js "UK") in
    if Nat.eqb (List.length nationalNumber) 10 then
      js "+44 " ++ firstn 4 nationalNumber ++ js " "
        ++ firstn 3 (skipn 4 nationalNumber) ++ js " "
        ++ skipn 7 nationalNumber
    else s.
Proof. reflexivity. Qed.

Lemma render_auto (s country : jstring) (cf : formatter) :
  formatPhoneNumberWithOptions s country (js "auto") cf
  = Ret (VString (if is_empty s then s else formatPhoneNumberAuto s country)).
Proof.
  unfold formatPhoneNumberWithOptions.
  destruct (is_empty s); [reflexivity|].
  destruct cf; reflexivity.
Qed.

(** C9.  In mode ['auto'] a UK number whose national number has ten
    characters [d0 .. d9] is rendered as ['+44 d0d1d2d3 d4d5d6 d7d8d9'];
    a UK number whose national number has any other length is returned
    unchanged; and ['+447123456789'] is rendered as ['+44 7123 456 789'].
    The code measures the national number by its length, which for a
    canonical input is its number of digits. *)
Theorem render_UK_auto (s : jstring) (cf : formatter) :
  (forall d0 d1 d2 d3 d4 d5 d6 d7 d8 d9,
      extractNationalNumber s (js "UK") = [d0; d1; d2; d3; d4; d5; d6; d7; d8; d9] ->
      formatPhoneNumberWithOptions s (js "UK") (js "auto") cf
      = Ret (VString (js "+44 " ++ [d0; d1; d2; d3] ++ js " " ++ [d4; d5; d6]
                      ++ js " " ++ [d7; d8; d9])))
  /\ (List.length (extractNationalNumber s (js "UK")) <> 10 ->
      formatPhoneNumberWithOptions s (js "UK") (js "auto") cf
      = Ret (VString s))
  /\ formatPhoneNumberWithOptions (js "+447123456789") (js "UK") (js "auto") cf
     = Ret (VString (js "+44 7123 456 789")).
Proof.
  split; [|split].
  - intros d0 d1 d2 d3 d4 d5 d6 d7 d8 d9 H.
    rewrite render_auto.
    destruct s as [|x s]; [discriminate H|]. simpl is_empty; cbv iota.
    rewrite formatPhoneNumberAuto_UK, H. reflexivity.
  - intros H. rewrite render_auto.
    destruct (is_empty s); [reflexivity|].
    rewrite formatPhoneNumberAuto_UK; cbv zeta.
    apply Nat.eqb_neq in H; rewrite H; reflexivity.
  - rewrite render_auto; reflexivity.
Qed.

Lemma render_UK_auto_witness :
  formatPhoneNumberWithOptions (js "+442012345678") (js "UK") (js "auto")
    no_formatter
  = Ret (VString (js "+44 2012 345 678"))
  /\ formatPhoneNumberWithOptions (js "+44201234567") (js "UK") (js "auto")
       no_formatter
     = Ret (VString (js "+44201234567")).
Proof.
  split.
  - apply (proj1 (render_UK_auto (js "+442012345678") no_formatter)
             50 48 49 50 51 52 53 54 55 56)%N.
    reflexivity.
  - apply (proj1 (proj2 (render_UK_auto (js "+44201234567") no_formatter))).
    vm_compute; discriminate.
Defined.

(** ** Which pattern sets accept anything *)

Lemma get_PHONE_PATTERNS_own (country : jstring) (e : registry_value) :
  get PHONE_PATTERNS country = Own e ->
  country = js "IN" /\ e = Patterns IN_patterns
  \/ country = js "US" /\ e = Patterns US_patterns
  \/ country = js "UK" /\ e = Patterns UK_patterns
  \/ country = js "INTERNATIONAL" /\ e = Pattern INTERNATIONAL.
Proof.
  unfold get, PHONE_PATTERNS, own_property.
  destruct (str_eqb (js "IN") country) eqn:E1;
    [apply str_eqb_eq in E1; intros H; injection H as <-; auto|].
  destruct (str_eqb (js "US") country) eqn:E2;
    [apply str_eqb_eq in E2; intros H; injection H as <-; auto|].
  destruct (str_eqb (js "UK") country) eqn:E3;
    [apply str_eqb_eq in E3; intros H; injection H as <-; auto|].
  destruct (str_eqb (js "INTERNATIONAL") country) eqn:E4;
    [apply str_eqb_eq in E4; intros H; injection H as <-; auto 6|].
  match goal with |- context [match ?x with _ => _ end] => destruct x as [[? ?]|] end;
    discriminate.
Qed.

(** Without a pattern to test, no class accepts. *)
Ltac no_pattern H :=
  revert H; unfold accepts; simpl field;
  destruct (str_eqb _ (js "mobile")); [discriminate|];
  destruct (str_eqb _ (js "landline")); [discriminate|];
  destruct (str_eqb _ (js "any")); discriminate.

(** Only the pattern sets of IN, US and UK ever accept. *)
Lemma accepts_true_inv (country type s : jstring) :
  accepts (get PHONE_PATTERNS country) type s = VBool true ->
  exists p, get PHONE_PATTERNS country = Own (Patterns p)
            /\ (country = js "IN" /\ p = IN_patterns
                \/ country = js "US" /\ p = US_patterns
                \/ country = js "UK" /\ p = UK_patterns).
Proof.
  intros H.
  destruct (get PHONE_PATTERNS country) as [e|text len|] eqn:G.
  - destruct (get_PHONE_PATTERNS_own _ _ G) as [[-> ->]|[[-> ->]|[[-> ->]|[-> ->]]]];
      eauto 6.
    exfalso; no_pattern H.
  - exfalso; no_pattern H.
  - exfalso; no_pattern H.
Qed.

Lemma accepts_true_iff (p : PatternSet) (type s : jstring) :
  accepts (Own (Patterns p)) type s = VBool true <->
  (type = js "mobile" /\ (matches (mobile p) s || matches (withCountryCode p) s = true))
  \/ (type = js "landline" /\ matches (landline p) s = true)
  \/ (type = js "any"
      /\ (matches (mobile p) s || matches (landline p) s
          || matches (withCountryCode p) s = true)).
Proof.
  unfold accepts; simpl field.
  destruct (str_eqb type (js "mobile")) eqn:E1.
  { apply str_eqb_eq in E1; subst type.
    destruct p as [[m|] l [w|]]; simpl;
      try destruct (test m s); try destruct (test w s); simpl;
      (split;
       [ try (intros _; left; split; reflexivity); intros H; discriminate H
       | intros [[_ H]|[[H _]|[H _]]];
         first [reflexivity | discriminate H | cbv in H; discriminate H] ]). }
  destruct (str_eqb type (js "landline")) eqn:E2.
  { apply str_eqb_eq in E2; subst type.
    destruct p as [m [l|] w]; simpl;
      try destruct (test l s); simpl;
      (split;
       [ try (intros _; right; left; split; reflexivity); intros H; discriminate H
       | intros [[H _]|[[_ H]|[H _]]];
         first [reflexivity | discriminate H | cbv in H; discriminate H] ]). }
  destruct (str_eqb type (js "any")) eqn:E3.
  { apply str_eqb_eq in E3; subst type.
    destruct p as [[m|] [l|] [w|]]; simpl;
      try destruct (test m s); try destruct (test l s); try destruct (test w s);
      simpl;
      (split;
       [ try (intros _; right; right; split; reflexivity); intros H; discriminate H
       | intros [[H _]|[[H _]|[_ H]]];
         first [reflexivity | discriminate H | cbv in H; discriminate H] ]). }
  apply str_eqb_neq in E1, E2, E3.
  split; [discriminate|].
  intros [[H _]|[[H _]|[H _]]]; contradiction.
Qed.

(** ** The convenience entry point *)

Lemma formatPhoneNumber_nonempty (s country : jstring) :
  s <> [] -> formatPhoneNumber s country <> [].
Proof.
  intros Hs; unfold formatPhoneNumber.
  repeat match goal with
         | |- context [if ?b then _ else _] => destruct b
         end;
    try exact Hs;
    intros H; apply (f_equal (@List.length char)) in H;
    rewrite length_app in H; unfold js in H; simpl in H; discriminate H.
Qed.

Lemma accepts_nonempty (country type s : jstring) :
  accepts (get PHONE_PATTERNS country) type s = VBool true -> s <> [].
Proof.
  intros H ->.
  destruct (accepts_true_inv _ _ _ H) as (p & G & Hp).
  rewrite G in H. apply accepts_true_iff in H.
  destruct Hp as [[_ ->]|[[_ ->]|[_ ->]]];
    destruct H as [[_ H]|[[_ H]|[_ H]]]; discriminate H.
Qed.

Lemma validate_verdict (v : value) (country type : jstring)
    (r : ValidationResult) :
  validatePhoneNumber v country type = Ret r ->
  isValid r = VBool true \/ isValid r = VBool false \/ isValid r = VUndefined.
Proof.
  intros Hv.
  destruct v as [| |b|n| |s|id];
    try (rewrite validate_not_string in Hv by reflexivity;
         injection Hv as <-; auto).
  destruct s as [|x s]; [rewrite validate_empty in Hv; injection Hv as <-; auto|].
  rewrite validate_string in Hv by discriminate.
  generalize dependent (clean (x :: s)); intros c Hv.
  destruct (get PHONE_PATTERNS country) as [e|text len|];
    try (injection Hv as <-; auto; fail);
    cbv zeta in Hv;
    match type of Hv with
    | context [truthy (accepts ?p _ _)] =>
        destruct (accepts_cases p type c) as [E|[E|E]]
    end;
    rewrite E in Hv; simpl in Hv; injection Hv as <-; auto.
Qed.



(** ** Languages of pattern fragments *)

Lemma lang_seq_inv (r1 r2 : regex) (s : jstring) :
  lang (Seq r1 r2) s ->
  exists s1 s2, s = s1 ++ s2 /\ lang r1 s1 /\ lang r2 s2.
Proof. intros H; inversion H; subst; eauto. Qed.

Lemma lang_eps_inv (s : jstring) : lang Eps s -> s = [].
Proof. intros H; inversion H; reflexivity. Qed.

Lemma lang_chr_inv (c : cclass) (s : jstring) :
  lang (Chr c) s -> exists x, s = [x] /\ in_class c x = true.
Proof. intros H; inversion H; subst; eauto. Qed.

Lemma lang_alt_inv (r1 r2 : regex) (s : jstring) :
  lang (Alt r1 r2) s -> lang r1 s \/ lang r2 s.
Proof. intros H; inversion H; subst; auto. Qed.

Lemma lang_opt_inv (r : regex) (s : jstring) :
  lang (Opt r) s -> s = [] \/ lang r s.
Proof. intros H; inversion H; subst; auto. Qed.

Lemma in_class_one (x y : char) : in_class [(x, x)] y = true <-> y = x.
Proof.
  unfold in_class; simpl. rewrite orb_false_r, andb_true_iff, !N.leb_le. lia.
Qed.

Lemma lang_lit_chars (p : jstring) : lang (lit_chars p) p.
Proof.
  induction p as [|x p IH]; simpl; [constructor|].
  apply (lang_seq (Chr [(x, x)]) (lit_chars p) [x] p); [|exact IH].
  constructor; apply in_class_one; reflexivity.
Qed.

Lemma lang_lit_chars_inv (p s : jstring) : lang (lit_chars p) s -> s = p.
Proof.
  revert s; induction p as [|x p IH]; intros s H; simpl in H.
  - apply lang_eps_inv; exact H.
  - apply lang_seq_inv in H as (s1 & s2 & -> & H1 & H2).
    apply lang_chr_inv in H1 as (y & -> & Hy). apply in_class_one in Hy; subst y.
    rewrite (IH _ H2); reflexivity.
Qed.

Lemma lang_lit (a : string) : lang (lit a) (js a).
Proof. apply lang_lit_chars. Qed.

Lemma lang_lit_inv (a : string) (s : jstring) : lang (lit a) s -> s = js a.
Proof. apply lang_lit_chars_inv. Qed.

(** A pattern that begins with a literal only matches strings that begin
    with it. *)
Lemma lang_lit_prefix (a : string) (r : regex) (s : jstring) :
  lang (Seq (lit a) r) s -> startsWith (js a) s = true.
Proof.
  intros H. apply lang_seq_inv in H as (s1 & s2 & -> & H1 & _).
  apply lang_lit_inv in H1; subst s1. apply startsWith_app.
Qed.

Lemma lang_opt_lit_inv (a : string) (s : jstring) :
  lang (Opt (lit a)) s -> s = [] \/ s = js a.
Proof.
  intros H; apply lang_opt_inv in H as [H|H]; [auto|].
  right; apply lang_lit_inv; exact H.
Qed.

Lemma lang_opt_chr_inv (c : cclass) (s : jstring) :
  lang (Opt (Chr c)) s -> s = [] \/ exists x, s = [x] /\ in_class c x = true.
Proof.
  intros H; apply lang_opt_inv in H as [H|H]; [auto|].
  right; apply lang_chr_inv; exact H.
Qed.

(** [c{n}] matches exactly the strings of [n] characters of the class. *)
Lemma lang_rep_chr_inv (c : cclass) (n : nat) (s : jstring) :
  lang (rep n (Chr c)) s ->
  List.length s = n /\ forallb (in_class c) s = true.
Proof.
  revert s; induction n as [|n IH]; intros s H; simpl in H.
  - apply lang_eps_inv in H; subst s; auto.
  - apply lang_seq_inv in H as (s1 & s2 & -> & H1 & H2).
    apply lang_chr_inv in H1 as (x & -> & Hx).
    destruct (IH _ H2) as [L F]. simpl; rewrite Hx, F, L; auto.
Qed.

Lemma lang_rep_chr (c : cclass) (n : nat) (s : jstring) :
  List.length s = n -> forallb (in_class c) s = true ->
  lang (rep n (Chr c)) s.
Proof.
  revert s; induction n as [|n IH]; intros [|x s] L F; simpl in *;
    try discriminate; [constructor|].
  apply andb_true_iff in F as [Fx Fs].
  apply (lang_seq (Chr c) (rep n (Chr c)) [x] s).
  - constructor; exact Fx.
  - apply IH; [congruence | exact Fs].
Qed.

Create HintDb lang.
#[local] Hint Resolve lang_lit lang_opt_none lang_eps lang_chr lang_rep_chr
  : lang.

(** ** Characters that the cleaning steps keep *)

Ltac decide_ranges :=
  unfold in_class, digit, d2_9, d6_9, d1_9, space_hyphen_parens, space_hyphen,
    space, separator, one, js in *;
  simpl in *;
  repeat match goal with
         | H : context [N.leb ?a ?b] |- _ =>
             destruct (N.leb_spec a b); simpl in H; try discriminate H; try lia
         | |- context [N.leb ?a ?b] =>
             destruct (N.leb_spec a b); simpl; try reflexivity; try lia
         end.

Lemma digit_kept (x : char) :
  in_class digit x = true -> in_class space_hyphen_parens x = false.
Proof. intros H; decide_ranges. Qed.

Lemma kept_by_clean (x : char) :
  in_class space_hyphen_parens x = false -> in_class space_hyphen x = false.
Proof.
  unfold space_hyphen_parens, space_hyphen, in_class.
  rewrite !existsb_app, !orb_false_iff. tauto.
Qed.

Lemma d2_9_digit (x : char) : in_class d2_9 x = true -> in_class digit x = true.
Proof. intros H; decide_ranges. Qed.

Lemma separator_cases (x : char) :
  in_class separator x = true -> x = 45%N \/ x = 46%N \/ x = 32%N.
Proof. intros H; decide_ranges. Qed.

Lemma remove_all_app (c : cclass) (s t : jstring) :
  remove_all c (s ++ t) = remove_all c s ++ remove_all c t.
Proof. apply filter_app. Qed.

Lemma remove_all_kept (c : cclass) (s : jstring) :
  forallb (fun x => negb (in_class c x)) s = true -> remove_all c s = s.
Proof.
  induction s as [|x s IH]; intros H; [reflexivity|].
  simpl in H; apply andb_true_iff in H as [Hx Hs].
  unfold remove_all; simpl; rewrite Hx; f_equal; apply IH; exact Hs.
Qed.

Lemma digits_kept (s : jstring) :
  forallb (in_class digit) s = true ->
  forallb (fun x => negb (in_class space_hyphen_parens x)) s = true.
Proof.
  induction s as [|x s IH]; simpl; [reflexivity|].
  intros H; apply andb_true_iff in H as [Hx Hs].
  rewrite (digit_kept _ Hx), IH; auto.
Qed.

Lemma kept_by_clean_all (s : jstring) :
  forallb (fun x => negb (in_class space_hyphen_parens x)) s = true ->
  forallb (fun x => negb (in_class space_hyphen x)) s = true.
Proof.
  induction s as [|x s IH]; simpl; [reflexivity|].
  intros H; apply andb_true_iff in H as [Hx Hs].
  apply negb_true_iff in Hx. rewrite (kept_by_clean _ Hx), IH; auto.
Qed.

Lemma raw_form_digits (s : jstring) :
  forallb (in_class digit) s = true -> raw_form s = s.
Proof. intros H; apply remove_all_kept, digits_kept, H. Qed.

(** ** Canonical international form *)

Lemma is_canonical_inv (country c : jstring) :
  is_canonical country c = true ->
  exists dial ds,
    c = dial ++ ds /\ forallb (in_class digit) ds = true
    /\ (country = js "IN" /\ dial = js "+91"
        \/ country = js "US" /\ dial = js "+1"
        \/ country = js "UK" /\ dial = js "+44").
Proof.
  unfold is_canonical, countryCodes, own_property.
  destruct (str_eqb (js "IN") country) eqn:E1;
    [|destruct (str_eqb (js "US") country) eqn:E2;
      [|destruct (str_eqb (js "UK") country) eqn:E3; [|discriminate]]];
    intros H; apply andb_true_iff in H as [P D];
    apply startsWith_split in P;
    match type of P with
    | c = ?dial ++ ?ds => exists dial, ds
    end;
    (split; [exact P|]); (split; [exact D|]).
  - apply str_eqb_eq in E1; auto.
  - apply str_eqb_eq in E2; auto.
  - apply str_eqb_eq in E3; auto.
Qed.

(** Neither cleaning step changes a canonical string, and a canonical
    string is not empty. *)
Lemma canonical_kept (country c : jstring) :
  is_canonical country c = true ->
  raw_form c = c /\ clean c = c /\ c <> [].
Proof.
  intros H. destruct (is_canonical_inv _ _ H) as (dial & ds & -> & D & Hd).
  assert (K : forallb (fun x => negb (in_class space_hyphen_parens x))
                (dial ++ ds) = true).
  { rewrite forallb_app, (digits_kept _ D), andb_true_r.
    destruct Hd as [[_ ->]|[[_ ->]|[_ ->]]]; reflexivity. }
  split; [apply remove_all_kept, K|].
  split; [apply remove_all_kept, kept_by_clean_all, K|].
  destruct Hd as [[_ ->]|[[_ ->]|[_ ->]]]; discriminate.
Qed.

(** ** Re-validating the canonical form *)

Lemma formatPhoneNumber_IN (s : jstring) :
  formatPhoneNumber s (js "IN")
  = if startsWith (js "+91") s then s else js "+91" ++ s.
Proof. reflexivity. Qed.

Lemma formatPhoneNumber_US (s : jstring) :
  formatPhoneNumber s (js "US")
  = if startsWith (js "+1") s then s
    else if includes 40%N s && includes 41%N s then js "+1" ++ raw_form s
    else if Nat.eqb (List.length s) 10 then js "+1" ++ s
    else s.
Proof. reflexivity. Qed.

Lemma formatPhoneNumber_UK (s : jstring) :
  formatPhoneNumber s (js "UK")
  = if startsWith (js "+44") s then s
    else if startsWith (js "0") s then js "+44" ++ skipn 1 s
    else js "+44" ++ s.
Proof. reflexivity. Qed.

(** IN: a number accepted through the mobile pattern or the pattern with
    the country code is accepted again once canonical. *)
Lemma reaccept_IN (type cl : jstring) :
  accepts (Own (Patterns IN_patterns)) type cl = VBool true ->
  test IN_landline cl = false ->
  accepts (Own (Patterns IN_patterns)) type (formatPhoneNumber cl (js "IN"))
  = VBool true.
Proof.
  rewrite formatPhoneNumber_IN.
  destruct (startsWith (js "+91") cl) eqn:P; [auto|].
  intros H L.
  assert (W : test IN_withCountryCode cl = false).
  { destruct (test IN_withCountryCode cl) eqn:E; [|reflexivity].
    apply test_lang, (lang_lit_prefix "+91") in E. congruence. }
  assert (M : test IN_mobile cl = true ->
              test IN_withCountryCode (js "+91" ++ cl) = true).
  { intros E; apply test_lang in E; apply test_lang.
    exact (lang_seq (lit "+91") IN_mobile _ _ (lang_lit "+91") E). }
  apply accepts_true_iff in H; apply accepts_true_iff.
  unfold IN_patterns, matches, mobile, landline, withCountryCode in H |- *.
  rewrite W, L in H.
  destruct H as [[-> H]|[[_ H]|[-> H]]]; [left|discriminate H|right; right];
    (split; [reflexivity|]);
    rewrite ?orb_false_r in H; rewrite (M H); apply orb_true_r.
Qed.

Lemma raw_form_app (s t : jstring) :
  raw_form (s ++ t) = raw_form s ++ raw_form t.
Proof. apply remove_all_app. Qed.

(** A group [[c]\d{n}] followed by [r]. *)
Lemma lang_chr_rep_inv (c : cclass) (n : nat) (r : regex) (s : jstring) :
  lang (Seq (Chr c) (Seq (rep n (Chr digit)) r)) s ->
  exists x t u,
    s = x :: t ++ u /\ in_class c x = true /\ List.length t = n
    /\ forallb (in_class digit) t = true /\ lang r u.
Proof.
  intros H.
  apply lang_seq_inv in H as (s1 & s2 & -> & H1 & H).
  apply lang_chr_inv in H1 as (x & -> & Hx).
  apply lang_seq_inv in H as (t & u & -> & Ht & Hu).
  apply lang_rep_chr_inv in Ht as [L D].
  exists x, t, u; auto.
Qed.

Lemma not_all_digits (l r : jstring) (x : char) :
  in_class digit x = false ->
  forallb (in_class digit) (l ++ x :: r) = true -> False.
Proof.
  intros Hx H. rewrite forallb_app in H. simpl in H.
  rewrite Hx, andb_false_r in H. discriminate H.
Qed.

(** US: a number accepted by the mobile pattern, once its spaces, hyphens
    and parentheses are removed, is ten digits if it is only digits, and
    then [+1] in front of it gives a match of the pattern with the
    country code. *)
Lemma US_mobile_digits (s : jstring) :
  lang US_mobile s ->
  forallb (in_class digit) (raw_form s) = true ->
  lang US_withCountryCode (js "+1" ++ raw_form s).
Proof.
  unfold US_mobile; cbn [cat]; intros H D.
  apply lang_seq_inv in H as (o1 & s1 & -> & Ho1 & H).
  apply lang_seq_inv in H as (a & s2 & -> & Ha & H).
  apply lang_seq_inv in H as (o2 & s3 & -> & Ho2 & H).
  apply lang_seq_inv in H as (o3 & s4 & -> & Ho3 & H).
  apply lang_seq_inv in H as (b & s5 & -> & Hb & H).
  apply lang_seq_inv in H as (o4 & s6 & -> & Ho4 & H).
  apply lang_seq_inv in H as (d & s7 & -> & Hd & H).
  apply lang_eps_inv in H as ->.
  apply lang_chr_rep_inv in Ha as (x & ta & ua & -> & Hx & La & Da & Ha).
  apply lang_eps_inv in Ha as ->.
  apply lang_chr_rep_inv in Hb as (y & tb & ub & -> & Hy & Lb & Db & Hb).
  apply lang_eps_inv in Hb as ->.
  apply lang_rep_chr_inv in Hd as [Ld Dd].
  rewrite !app_nil_r in *.
  assert (R1 : raw_form o1 = [])
    by (destruct (lang_opt_lit_inv _ _ Ho1) as [->| ->]; reflexivity).
  assert (R2 : raw_form o2 = [])
    by (destruct (lang_opt_lit_inv _ _ Ho2) as [->| ->]; reflexivity).
  assert (R3 : raw_form o3 = [] \/ raw_form o3 = [46%N]).
  { destruct (lang_opt_chr_inv _ _ Ho3) as [->|(z & -> & Hz)]; [left; reflexivity|].
    destruct (separator_cases _ Hz) as [->|[->| ->]];
      [left|right|left]; reflexivity. }
  assert (R4 : raw_form o4 = [] \/ raw_form o4 = [46%N]).
  { destruct (lang_opt_chr_inv _ _ Ho4) as [->|(z & -> & Hz)]; [left; reflexivity|].
    destruct (separator_cases _ Hz) as [->|[->| ->]];
      [left|right|left]; reflexivity. }
  assert (RA : raw_form (x :: ta) = x :: ta).
  { apply raw_form_digits; simpl; rewrite (d2_9_digit _ Hx), Da; reflexivity. }
  assert (RB : raw_form (y :: tb) = y :: tb).
  { apply raw_form_digits; simpl; rewrite (d2_9_digit _ Hy), Db; reflexivity. }
  rewrite !raw_form_app in D |- *.
  rewrite R1, R2, RA, RB, (raw_form_digits _ Dd) in D |- *.
  destruct R3 as [R3|R3], R4 as [R4|R4]; rewrite R3, R4 in D |- *;
    simpl app in D |- *.
  - unfold US_withCountryCode; cbn [cat].
    apply (lang_seq _ _ (js "+1") _ (lang_lit "+1")).
    apply (lang_seq _ _ [x] (ta ++ y :: tb ++ d) (lang_chr _ _ Hx)).
    apply lang_seq; [apply lang_rep_chr; assumption|].
    apply (lang_seq _ _ [y] (tb ++ d) (lang_chr _ _ Hy)).
    rewrite <- (app_nil_r (tb ++ d)).
    apply lang_seq; [|constructor].
    apply lang_rep_chr.
    + rewrite length_app, Lb, Ld; reflexivity.
    + rewrite forallb_app, Db, Dd; reflexivity.
  - exfalso. apply (not_all_digits (x :: ta ++ y :: tb) d 46%N); [reflexivity|].
    simpl; rewrite <- app_assoc; exact D.
  - exfalso. apply (not_all_digits (x :: ta) (y :: tb ++ d) 46%N); [reflexivity|].
    exact D.
  - exfalso. apply (not_all_digits (x :: ta) (y :: tb ++ 46%N :: d) 46%N);
      [reflexivity|]. exact D.
Qed.

Lemma is_canonical_US (c : jstring) :
  is_canonical (js "US") c
  = startsWith (js "+1") c && forallb (in_class digit) (skipn 2 c).
Proof. reflexivity. Qed.

Lemma is_canonical_UK (c : jstring) :
  is_canonical (js "UK") c
  = startsWith (js "+44") c && forallb (in_class digit) (skipn 3 c).
Proof. reflexivity. Qed.

(** US: a number whose canonicalised form really is canonical is accepted
    again in that form. *)
Lemma reaccept_US (type cl : jstring) :
  accepts (Own (Patterns US_patterns)) type cl = VBool true ->
  is_canonical (js "US") (formatPhoneNumber cl (js "US")) = true ->
  accepts (Own (Patterns US_patterns)) type (formatPhoneNumber cl (js "US"))
  = VBool true.
Proof.
  rewrite formatPhoneNumber_US.
  destruct (startsWith (js "+1") cl) eqn:P; [auto|].
  assert (W : test US_withCountryCode cl = false).
  { destruct (test US_withCountryCode cl) eqn:E; [|reflexivity].
    apply test_lang, (lang_lit_prefix "+1") in E. congruence. }
  assert (K : forall t,
             accepts (Own (Patterns US_patterns)) type cl = VBool true ->
             test US_withCountryCode t = true ->
             accepts (Own (Patterns US_patterns)) type t = VBool true).
  { intros t H T. apply accepts_true_iff in H; apply accepts_true_iff.
    unfold US_patterns, matches, mobile, landline, withCountryCode in H |- *.
    rewrite T.
    destruct H as [[-> H]|[[_ H]|[-> H]]]; [left|discriminate H|right; right];
      (split; [reflexivity | apply orb_true_r]). }
  assert (M : accepts (Own (Patterns US_patterns)) type cl = VBool true ->
              lang US_mobile cl).
  { intros H. apply accepts_true_iff in H.
    unfold US_patterns, matches, mobile, landline, withCountryCode in H.
    rewrite W in H. apply test_lang.
    destruct H as [[_ H]|[[_ H]|[_ H]]]; [|discriminate H|];
      rewrite ?orb_false_r in H; exact H. }
  destruct (includes 40%N cl && includes 41%N cl).
  - intros H C. rewrite is_canonical_US in C.
    apply andb_true_iff in C as [_ D].
    change (skipn 2 (js "+1" ++ raw_form cl)) with (raw_form cl) in D.
    apply (K _ H), test_lang, US_mobile_digits; [apply M, H | exact D].
  - destruct (Nat.eqb (List.length cl) 10); [|auto].
    intros H C. rewrite is_canonical_US in C.
    apply andb_true_iff in C as [_ D].
    change (skipn 2 (js "+1" ++ cl)) with cl in D.
    apply (K _ H), test_lang.
    rewrite <- (raw_form_digits _ D) at 1.
    apply US_mobile_digits; [apply M, H|].
    rewrite (raw_form_digits _ D); exact D.
Qed.

(** UK: a number made of digits only that the mobile pattern accepts
    begins with the trunk digit 0, and [+44] in place of that digit gives
    another match. *)
Lemma UK_mobile_digits (s : jstring) :
  lang UK_mobile s ->
  forallb (in_class digit) s = true ->
  exists t, s = 48%N :: t /\ lang UK_mobile (js "+44" ++ t).
Proof.
  unfold UK_mobile; cbn [cat]; intros H D.
  apply lang_seq_inv in H as (p & q & -> & Hp & Hq).
  apply lang_alt_inv in Hp as [Hp|Hp].
  - apply lang_seq_inv in Hp as (p1 & p2 & -> & Hp1 & _).
    apply lang_lit_inv in Hp1 as ->. discriminate D.
  - apply lang_seq_inv in Hp as (o1 & p1 & -> & Ho1 & Hp).
    apply lang_seq_inv in Hp as (z & p2 & -> & Hz & Hp).
    apply lang_seq_inv in Hp as (d3 & p3 & -> & Hd3 & Hp).
    apply lang_seq_inv in Hp as (o2 & p4 & -> & Ho2 & Hp).
    apply lang_eps_inv in Hp as ->.
    apply lang_lit_inv in Hz as ->.
    destruct (lang_opt_lit_inv _ _ Ho1) as [->| ->]; [|discriminate D].
    destruct (lang_opt_lit_inv _ _ Ho2) as [->| ->].
    + exists (55%N :: d3 ++ q). split.
      { simpl; rewrite !app_nil_r; reflexivity. }
      replace (js "+44" ++ 55%N :: d3 ++ q)
        with ((js "+44" ++ [] ++ js "7" ++ d3 ++ []) ++ q)
        by (simpl; rewrite app_nil_r; reflexivity).
      apply lang_seq; [apply lang_alt_l|exact Hq].
      repeat apply lang_seq; auto with lang.
    + exfalso.
      apply (not_all_digits (48%N :: 55%N :: d3) q 41%N); [reflexivity|].
      revert D. simpl. rewrite ?app_nil_r, <- ?app_assoc. simpl. auto.
Qed.

Lemma UK_landline_digits (s : jstring) :
  lang UK_landline s ->
  forallb (in_class digit) s = true ->
  exists t, s = 48%N :: t /\ lang UK_landline (js "+44" ++ t).
Proof.
  unfold UK_landline; cbn [cat]; intros H D.
  apply lang_seq_inv in H as (p & q & -> & Hp & Hq).
  apply lang_alt_inv in Hp as [Hp|Hp].
  - apply lang_seq_inv in Hp as (p1 & p2 & -> & Hp1 & _).
    apply lang_lit_inv in Hp1 as ->. discriminate D.
  - apply lang_seq_inv in Hp as (o1 & p1 & -> & Ho1 & Hp).
    apply lang_seq_inv in Hp as (z & p2 & -> & Hz & Hp).
    apply lang_chr_rep_inv in Hp as (x & d2 & p3 & -> & Hx & L2 & D2 & Hp).
    apply lang_seq_inv in Hp as (o2 & p4 & -> & Ho2 & Hp).
    apply lang_eps_inv in Hp as ->.
    apply lang_lit_inv in Hz as ->.
    destruct (lang_opt_lit_inv _ _ Ho1) as [->| ->]; [|discriminate D].
    destruct (lang_opt_lit_inv _ _ Ho2) as [->| ->].
    + exists (x :: d2 ++ q). split.
      { simpl; rewrite !app_nil_r; reflexivity. }
      replace (js "+44" ++ x :: d2 ++ q)
        with ((js "+44" ++ [] ++ [x] ++ d2 ++ []) ++ q)
        by (simpl; rewrite app_nil_r; reflexivity).
      apply lang_seq; [apply lang_alt_l|exact Hq].
      repeat apply lang_seq; auto with lang.
    + exfalso.
      apply (not_all_digits (48%N :: x :: d2) q 41%N); [reflexivity|].
      revert D. simpl. rewrite ?app_nil_r, <- ?app_assoc. simpl. auto.
Qed.

(** UK: a number whose canonicalised form really is canonical is accepted
    again in that form. *)
Lemma reaccept_UK (type cl : jstring) :
  accepts (Own (Patterns UK_patterns)) type cl = VBool true ->
  is_canonical (js "UK") (formatPhoneNumber cl (js "UK")) = true ->
  accepts (Own (Patterns UK_patterns)) type (formatPhoneNumber cl (js "UK"))
  = VBool true.
Proof.
  rewrite formatPhoneNumber_UK.
  destruct (startsWith (js "+44") cl) eqn:P; [auto|].
  assert (K : forall r,
             matches r cl = true -> forallb (in_class digit) cl = true ->
             In r [mobile UK_patterns; landline UK_patterns;
                   withCountryCode UK_patterns] ->
             exists t, cl = 48%N :: t /\ matches r (js "+44" ++ t) = true).
  { intros r Hr D [<-|[<-|[<-|[]]]]; simpl in Hr |- *; try discriminate Hr.
    - apply test_lang in Hr.
      destruct (UK_mobile_digits _ Hr D) as (t & -> & Ht).
      exists t; split; [reflexivity | apply test_lang, Ht].
    - apply test_lang in Hr.
      destruct (UK_landline_digits _ Hr D) as (t & -> & Ht).
      exists t; split; [reflexivity | apply test_lang, Ht]. }
  assert (A : forall t,
             (forall r, In r [mobile UK_patterns; landline UK_patterns;
                              withCountryCode UK_patterns] ->
                        matches r cl = true -> matches r t = true) ->
             accepts (Own (Patterns UK_patterns)) type cl = VBool true ->
             accepts (Own (Patterns UK_patterns)) type t = VBool true).
  { intros t M H. apply accepts_true_iff in H; apply accepts_true_iff.
    destruct H as [[-> H]|[[-> H]|[-> H]]]; [left|right; left|right; right];
      (split; [reflexivity|]);
      repeat (apply orb_true_iff in H as [H|H]);
      apply M in H; try (rewrite H; rewrite ?orb_true_r; reflexivity);
      simpl; auto. }
  destruct (startsWith (js "0") cl) eqn:Z.
  - intros H C. rewrite is_canonical_UK in C.
    apply andb_true_iff in C as [_ D].
    change (skipn 3 (js "+44" ++ skipn 1 cl)) with (skipn 1 cl) in D.
    pose proof (startsWith_split _ _ Z) as E.
    change (js "0" ++ skipn (List.length (js "0")) cl)
      with (48%N :: skipn 1 cl) in E.
    revert D E; generalize (skipn 1 cl); intros t D E; subst cl.
    apply (A (js "+44" ++ t)); [|exact H].
    intros r Hin Hr.
    assert (D' : forallb (in_class digit) (48%N :: t) = true).
    { cbn [forallb]; apply andb_true_iff; split; [reflexivity | exact D]. }
    destruct (K r Hr D' Hin) as (u & Eu & Hu).
    injection Eu as <-. exact Hu.
  - intros H C. rewrite is_canonical_UK in C.
    apply andb_true_iff in C as [_ D].
    change (skipn 3 (js "+44" ++ cl)) with cl in D.
    exfalso.
    apply accepts_true_iff in H.
    assert (exists r, In r [mobile UK_patterns; landline UK_patterns;
                            withCountryCode UK_patterns]
                      /\ matches r cl = true) as (r & Hin & Hr).
    { destruct H as [[_ H]|[[_ H]|[_ H]]];
        repeat (apply orb_true_iff in H as [H|H]);
        eexists; (split; [|exact H]); simpl; auto. }
    destruct (K r Hr D Hin) as (t & -> & _). discriminate Z.
Qed.

Lemma render_raw (s country : jstring) (cf : formatter) :
  formatPhoneNumberWithOptions s country (js "raw") cf
  = Ret (VString (raw_form s)).
Proof.
  destruct s as [|x s]; [reflexivity|].
  unfold formatPhoneNumberWithOptions; simpl is_empty; cbv iota.
  destruct cf; reflexivity.
Qed.

(** The round trip on the other paths.  Let [raw] validate under a country
    and a class with canonical result [c].  If [c] is in canonical
    international form (the dial code, then digits only) and the number was
    not accepted by the IN landline pattern, then mode ['raw'] renders [c]
    as [c] itself and [c] validates under the same country and class: IN
    mobile, US and UK numbers, UK landlines among them, are accepted again
    in their dial-code form. *)
Lemma raw_roundtrip (raw country type c : jstring) (cf : formatter)
    (r : ValidationResult) :
  validatePhoneNumber (VString raw) country type = Ret r ->
  isValid r = VBool true ->
  formatted r = VString c ->
  is_canonical country c = true ->
  ~ (country = js "IN" /\ test IN_landline (clean raw) = true) ->
  formatPhoneNumberWithOptions c country (js "raw") cf = Ret (VString c)
  /\ validates c country type.
Proof.
  intros Hv Hr Hf Hc Hn.
  destruct (validate_valid_inv _ _ _ _ Hv Hr)
    as (s & patterns & E & Hs & <- & Hp & Ha & ->).
  injection E as <-. injection Hf as <-.
  destruct (canonical_kept _ _ Hc) as (Kr & Kc & Kn).
  split; [rewrite render_raw, Kr; reflexivity|].
  unfold validates. rewrite validate_string by exact Kn. rewrite Kc.
  destruct (accepts_true_inv _ _ _ Ha) as (p & G & Hp').
  rewrite G in Ha |- *. cbv zeta.
  assert (A : accepts (Own (Patterns p)) type
                (formatPhoneNumber (clean raw) country) = VBool true).
  { destruct Hp' as [[-> ->]|[[-> ->]|[-> ->]]].
    - apply reaccept_IN; [exact Ha|].
      destruct (test IN_landline (clean raw)) eqn:L; [|reflexivity].
      exfalso; apply Hn; auto.
    - apply reaccept_US; assumption.
    - apply reaccept_UK; assumption. }
  rewrite A. eexists; split; reflexivity.
Qed.

Lemma raw_roundtrip_witness :
  formatPhoneNumberWithOptions (js "+15552345678") (js "US") (js "raw")
    no_formatter
  = Ret (VString (js "+15552345678"))
  /\ validates (js "+15552345678") (js "US") (js "mobile").
Proof.
  apply (raw_roundtrip (js "(555) 234-5678") (js "US") (js "mobile")
           (js "+15552345678") no_formatter
           (accepted_result (VBool true) (js "+15552345678")));
    try reflexivity.
  intros [H _]; vm_compute in H; discriminate H.
Defined.

(** The canonical form of an IN landline number: whatever the landline
    pattern accepted, its canonical form begins with [+91] and is rejected
    under IN/landline. *)
Lemma IN_landline_canonical_rejected (raw c : jstring) (r : ValidationResult) :
  validatePhoneNumber (VString raw) (js "IN") (js "landline") = Ret r ->
  isValid r = VBool true ->
  formatted r = VString c ->
  c = js "+91" ++ clean raw
  /\ validatePhoneNumber (VString c) (js "IN") (js "landline")
     = Ret (rejected_result (VBool false) (js "landline") (js "IN")).
Proof.
  intros Hv Hr Hf.
  destruct (validate_valid_inv _ _ _ _ Hv Hr)
    as (s & patterns & E & Hs & <- & Hp & Ha & ->).
  injection E as <-. injection Hf as <-.
  change (get PHONE_PATTERNS (js "IN")) with (Own (Patterns IN_patterns)) in Ha.
  apply accepts_true_iff in Ha.
  destruct Ha as [[Ha _]|[[_ Ha]|[Ha _]]];
    [cbv in Ha; discriminate Ha | | cbv in Ha; discriminate Ha].
  unfold IN_patterns, matches, landline in Ha.
  apply test_lang in Ha. unfold IN_landline in Ha; cbn [cat] in Ha.
  apply lang_seq_inv in Ha as (s1 & s2 & Ecl & H1 & _).
  apply lang_chr_inv in H1 as (x & -> & Hx).
  assert (P : startsWith (js "+91") (clean raw) = false).
  { rewrite Ecl. change (startsWith (js "+91") ([x] ++ s2))
      with (N.eqb 43 x && startsWith (js "91") s2).
    replace (N.eqb 43 x) with false; [reflexivity|].
    symmetry; apply N.eqb_neq; intros <-. discriminate Hx. }
  rewrite formatPhoneNumber_IN, P. split; [reflexivity|].
  rewrite validate_string by discriminate.
  (* the first character, [+], is outside [[2-9]] *)
  reflexivity.
Qed.

(** No input validates under the registry key INTERNATIONAL, whatever the
    class. *)
Lemma INTERNATIONAL_never_valid (v : value) (type : jstring)
    (r : ValidationResult) :
  validatePhoneNumber v (js "INTERNATIONAL") type = Ret r ->
  isValid r <> VBool true.
Proof.
  intros Hv Hr.
  destruct (validate_valid_inv _ _ _ _ Hv Hr)
    as (s & patterns & _ & _ & <- & _ & Ha & _).
  destruct (accepts_true_inv _ _ _ Ha) as (p & _ & [[E _]|[[E _]|[E _]]]);
    cbv in E; discriminate E.
Qed.

(** * Further properties of the engine *)

(** ** Lengths and alphabets of the patterns *)

Lemma lang_length (r : regex) (s : jstring) :
  lang r s -> min_len r <= List.length s <= max_len r.
Proof.
  induction 1 as [|c x E|r1 r2 s1 s2 _ IH1 _ IH2|r1 r2 s _ IH|r1 r2 s _ IH
                  |r|r s _ IH]; simpl; try rewrite length_app; lia.
Qed.

Lemma subclass_sound (c d : cclass) (x : char) :
  subclass c d = true -> in_class c x = true -> in_class d x = true.
Proof.
  unfold subclass, in_class. rewrite forallb_forall, !existsb_exists.
  intros S (r & Hr & Hx). apply andb_true_iff in Hx as [H1 H2].
  apply N.leb_le in H1, H2.
  destruct (proj1 (existsb_exists _ _) (S r Hr)) as (r' & Hr' & H).
  apply andb_true_iff in H as [H3 H4]. apply N.leb_le in H3, H4.
  exists r'; split; [exact Hr'|].
  apply andb_true_iff; split; apply N.leb_le; lia.
Qed.

Lemma lang_within (d : cclass) (r : regex) (s : jstring) :
  regex_within d r = true -> lang r s -> forallb (in_class d) s = true.
Proof.
  intros W L; induction L as [|c x E|r1 r2 s1 s2 _ IH1 _ IH2|r1 r2 s _ IH
                              |r1 r2 s _ IH|r|r s _ IH]; simpl in *;
    try reflexivity;
    try (apply andb_true_iff in W as [W1 W2]); auto.
  - rewrite (subclass_sound _ _ _ W E); reflexivity.
  - rewrite forallb_app, IH1, IH2; auto.
Qed.

Lemma free_of_app (c : cclass) (s t : jstring) :
  free_of c (s ++ t) = free_of c s && free_of c t.
Proof. apply forallb_app. Qed.

Lemma needs_sound (c : cclass) (r : regex) (s : jstring) :
  needs c r = true -> lang r s -> free_of c s = false.
Proof.
  intros N L; induction L as [|d x E|r1 r2 s1 s2 _ IH1 _ IH2|r1 r2 s _ IH
                              |r1 r2 s _ IH|r|r s _ IH]; simpl in N;
    try discriminate N.
  - unfold free_of; simpl. rewrite (subclass_sound _ _ _ N E); reflexivity.
  - rewrite free_of_app. apply orb_true_iff in N as [N|N].
    + rewrite (IH1 N); reflexivity.
    + rewrite (IH2 N); apply andb_false_r.
  - apply andb_true_iff in N as [N _]; auto.
  - apply andb_true_iff in N as [_ N]; auto.
Qed.

(** On a string free of [c] a pattern matches as its pruned form does. *)
Lemma lang_prune (c : cclass) (r : regex) (s : jstring) :
  lang r s -> free_of c s = true -> lang (prune c r) s.
Proof.
  intros L; induction L as [|d x E|r1 r2 s1 s2 _ IH1 _ IH2|r1 r2 s L1 IH
                            |r1 r2 s L2 IH|r|r s L1 IH]; intros F; simpl.
  - constructor.
  - constructor; exact E.
  - rewrite free_of_app in F; apply andb_true_iff in F as [F1 F2].
    constructor; auto.
  - destruct (needs c r1) eqn:N1.
    + rewrite (needs_sound _ _ _ N1 L1) in F; discriminate F.
    + destruct (needs c r2); [auto | apply lang_alt_l; auto].
  - destruct (needs c r1) eqn:N1; [auto|].
    destruct (needs c r2) eqn:N2.
    + rewrite (needs_sound _ _ _ N2 L2) in F; discriminate F.
    + apply lang_alt_r; auto.
  - destruct (needs c r); constructor.
  - destruct (needs c r) eqn:N.
    + rewrite (needs_sound _ _ _ N L1) in F; discriminate F.
    + apply lang_opt_some; auto.
Qed.

Lemma remove_all_free (c : cclass) (s : jstring) :
  free_of c (remove_all c s) = true.
Proof.
  unfold free_of, remove_all. apply forallb_forall.
  intros x Hx. apply filter_In in Hx as [_ Hx]. exact Hx.
Qed.

Lemma remove_all_idempotent (c : cclass) (s : jstring) :
  remove_all c (remove_all c s) = remove_all c s.
Proof. apply remove_all_kept, remove_all_free. Qed.

Lemma clean_free (s : jstring) : free_of space_hyphen (clean s) = true.
Proof. apply remove_all_free. Qed.

(** ** What the validator accepts *)

(** A valid result comes from one pattern of the country's set matching
    the cleaned input. *)
Lemma valid_pattern (raw country type : jstring) (r : ValidationResult) :
  validatePhoneNumber (VString raw) country type = Ret r ->
  isValid r = VBool true ->
  r = accepted_result (VBool true) (formatPhoneNumber (clean raw) country)
  /\ exists p pat,
       (country = js "IN" /\ p = IN_patterns
        \/ country = js "US" /\ p = US_patterns
        \/ country = js "UK" /\ p = UK_patterns)
       /\ accepts (Own (Patterns p)) type (clean raw) = VBool true
       /\ In (Some pat) [mobile p; landline p; withCountryCode p]
       /\ lang pat (clean raw).
Proof.
  intros Hv Hr.
  destruct (validate_valid_inv _ _ _ _ Hv Hr)
    as (s & patterns & E & Hs & <- & Hp & Ha & ->).
  injection E as <-. split; [reflexivity|].
  destruct (accepts_true_inv _ _ _ Ha) as (p & G & Hc).
  rewrite G in Ha. exists p.
  assert (M : exists q, In q [mobile p; landline p; withCountryCode p]
                        /\ matches q (clean raw) = true).
  { apply accepts_true_iff in Ha.
    destruct Ha as [[_ H]|[[_ H]|[_ H]]];
      repeat (apply orb_true_iff in H as [H|H]);
      eexists; (split; [|exact H]); simpl; auto. }
  destruct M as ([pat|] & Hin & Hm); [|discriminate Hm].
  exists pat. repeat split; auto. apply test_lang; exact Hm.
Qed.

(** X1.  The validator does not see white space and hyphens: a string with one
    more of them anywhere validates as the string without it, provided
    that string is not empty. *)
Theorem validate_ignores_separators (a b : jstring) (x : char)
    (country type : jstring) :
  in_class space_hyphen x = true ->
  a ++ b <> [] ->
  validatePhoneNumber (VString (a ++ x :: b)) country type
  = validatePhoneNumber (VString (a ++ b)) country type.
Proof.
  intros Hx Hab.
  assert (C : clean (a ++ x :: b) = clean (a ++ b)).
  { unfold clean. rewrite !remove_all_app. f_equal.
    unfold remove_all; simpl. rewrite Hx; reflexivity. }
  rewrite !validate_string; [rewrite C; reflexivity | exact Hab |].
  destruct a; discriminate.
Qed.

Lemma validate_ignores_separators_witness :
  validatePhoneNumber (VString (js "98765-43210")) (js "IN") (js "mobile")
  = validatePhoneNumber (VString (js "9876543210")) (js "IN") (js "mobile").
Proof.
  apply (validate_ignores_separators (js "98765") (js "43210") 45%N);
    [reflexivity | discriminate].
Defined.

(** X2.  Only the three countries and the three classes ever validate. *)
Theorem valid_only_known (v : value) (country type : jstring)
    (r : ValidationResult) :
  validatePhoneNumber v country type = Ret r ->
  isValid r = VBool true ->
  In country CountryCode /\ In type PhoneClass.
Proof.
  intros Hv Hr.
  destruct (validate_valid_inv _ _ _ _ Hv Hr)
    as (s & patterns & _ & _ & <- & _ & Ha & _).
  destruct (accepts_true_inv _ _ _ Ha) as (p & G & Hc).
  rewrite G in Ha. apply accepts_true_iff in Ha. split.
  - destruct Hc as [[-> _]|[[-> _]|[-> _]]]; simpl; auto.
  - destruct Ha as [[-> _]|[[-> _]|[-> _]]]; simpl; auto.
Qed.

Lemma valid_only_known_witness :
  In (js "UK") CountryCode /\ In (js "landline") PhoneClass.
Proof.
  apply (valid_only_known (VString (js "02012345678")) (js "UK")
           (js "landline")
           (accepted_result (VBool true) (js "+442012345678")));
    reflexivity.
Defined.

(** X3.  What validates as mobile or as landline validates under class ['any'],
    with the same result. *)
Theorem any_subsumes (v : value) (country type : jstring)
    (r : ValidationResult) :
  type = js "mobile" \/ type = js "landline" ->
  validatePhoneNumber v country type = Ret r ->
  isValid r = VBool true ->
  validatePhoneNumber v country (js "any") = Ret r.
Proof.
  intros Ht Hv Hr.
  destruct (validate_valid_inv _ _ _ _ Hv Hr)
    as (s & patterns & -> & Hs & <- & _ & Ha & ->).
  destruct (accepts_true_inv _ _ _ Ha) as (p & G & _).
  rewrite validate_string by exact Hs. rewrite G in Ha |- *. cbv zeta.
  assert (A : accepts (Own (Patterns p)) (js "any") (clean s) = VBool true).
  { apply accepts_true_iff in Ha; apply accepts_true_iff.
    right; right; split; [reflexivity|].
    destruct Ht as [-> | ->];
      destruct Ha as [[E H]|[[E H]|[E H]]];
      try (cbv in E; discriminate E).
    - apply orb_true_iff in H as [H|H]; rewrite H;
        rewrite ?orb_true_r; reflexivity.
    - rewrite H, orb_true_r; reflexivity. }
  rewrite A; reflexivity.
Qed.

Lemma any_subsumes_witness :
  validatePhoneNumber (VString (js "22123456")) (js "IN") (js "any")
  = Ret (accepted_result (VBool true) (js "+9122123456")).
Proof.
  apply (any_subsumes (VString (js "22123456")) (js "IN") (js "landline"));
    [right; reflexivity | reflexivity | reflexivity].
Defined.

(** X4.  The cleaned form of a number that validates has between 8 and 13 code
    units for IN, between 10 and 14 for US, between 11 and 13 for UK. *)
Theorem valid_length (raw country type : jstring) (r : ValidationResult) :
  validatePhoneNumber (VString raw) country type = Ret r ->
  isValid r = VBool true ->
  country = js "IN" /\ 8 <= List.length (clean raw) <= 13
  \/ country = js "US" /\ 10 <= List.length (clean raw) <= 14
  \/ country = js "UK" /\ 11 <= List.length (clean raw) <= 13.
Proof.
  intros Hv Hr.
  destruct (valid_pattern _ _ _ _ Hv Hr) as (_ & p & pat & Hc & _ & Hin & L).
  apply (lang_prune space_hyphen) in L; [|apply clean_free].
  apply lang_length in L.
  revert L; generalize (List.length (clean raw)); intros n L.
  destruct Hc as [[-> ->]|[[-> ->]|[-> ->]]];
    [left|right; left|right; right]; (split; [reflexivity|]);
    simpl in Hin;
    repeat (destruct Hin as [Hin|Hin];
            [try discriminate Hin; injection Hin as <-;
             vm_compute in L; lia|]);
    destruct Hin.
Qed.

Lemma valid_length_witness :
  js "US" = js "IN" /\ 8 <= List.length (clean (js "(555).234.5678")) <= 13
  \/ js "US" = js "US"
     /\ 10 <= List.length (clean (js "(555).234.5678")) <= 14
  \/ js "US" = js "UK"
     /\ 11 <= List.length (clean (js "(555).234.5678")) <= 13.
Proof.
  apply (valid_length (js "(555).234.5678") (js "US") (js "mobile")
           (accepted_result (VBool true) (js "+1555.234.5678")));
    reflexivity.
Defined.

(** ** When the canonical form is canonical *)

Lemma is_canonical_IN (c : jstring) :
  is_canonical (js "IN") c
  = startsWith (js "+91") c && forallb (in_class digit) (skipn 3 c).
Proof. reflexivity. Qed.

(** What validates under IN/landline was matched by the landline
    pattern, so its cleaned form consists of digits. *)
Lemma IN_landline_digits (raw : jstring) (r : ValidationResult) :
  validatePhoneNumber (VString raw) (js "IN") (js "landline") = Ret r ->
  isValid r = VBool true ->
  forallb (in_class digit) (clean raw) = true.
Proof.
  intros Hv Hr.
  destruct (validate_valid_inv _ _ _ _ Hv Hr)
    as (s & patterns & E & _ & <- & _ & Ha & _).
  injection E as <-.
  change (get PHONE_PATTERNS (js "IN")) with (Own (Patterns IN_patterns)) in Ha.
  apply accepts_true_iff in Ha.
  destruct Ha as [[Ha _]|[[_ Ha]|[Ha _]]];
    [cbv in Ha; discriminate Ha | | cbv in Ha; discriminate Ha].
  unfold IN_patterns, matches, landline in Ha.
  apply test_lang in Ha.
  exact (lang_within digit IN_landline _ eq_refl Ha).
Qed.

(** C7.  The code breaks the round trip for every Indian landline number.
    When [raw] validates under IN/landline with canonical result [c], then
    [c] is ['+91'] followed by the cleaned input, mode ['raw'] renders [c]
    as [c] itself, and [c] is rejected under IN/landline, with
    [isValid: false]: the validator emits a canonical form that the landline
    pattern, the only one consulted for that class, does not accept. *)
Theorem raw_roundtrip_IN_landline_fails (raw c : jstring) (cf : formatter)
    (r : ValidationResult) :
  validatePhoneNumber (VString raw) (js "IN") (js "landline") = Ret r ->
  isValid r = VBool true ->
  formatted r = VString c ->
  c = js "+91" ++ clean raw
  /\ formatPhoneNumberWithOptions c (js "IN") (js "raw") cf = Ret (VString c)
  /\ validatePhoneNumber (VString c) (js "IN") (js "landline")
     = Ret (rejected_result (VBool false) (js "landline") (js "IN")).
Proof.
  intros Hv Hr Hf.
  destruct (IN_landline_canonical_rejected _ _ _ Hv Hr Hf) as [E V].
  split; [exact E|]. split; [|exact V].
  assert (C : is_canonical (js "IN") c = true).
  { subst c. rewrite is_canonical_IN.
    change (skipn 3 (js "+91" ++ clean raw)) with (clean raw).
    rewrite (IN_landline_digits _ _ Hv Hr). reflexivity. }
  destruct (canonical_kept _ _ C) as (Kr & _ & _).
  rewrite render_raw, Kr. reflexivity.
Qed.

Lemma raw_roundtrip_IN_landline_fails_witness :
  js "+9122123456" = js "+91" ++ clean (js "22123456")
  /\ formatPhoneNumberWithOptions (js "+9122123456") (js "IN") (js "raw")
       no_formatter
     = Ret (VString (js "+9122123456"))
  /\ validatePhoneNumber (VString (js "+9122123456")) (js "IN") (js "landline")
     = Ret (rejected_result (VBool false) (js "landline") (js "IN")).
Proof.
  apply (raw_roundtrip_IN_landline_fails (js "22123456") (js "+9122123456")
           no_formatter (accepted_result (VBool true) (js "+9122123456")));
    reflexivity.
Defined.

Lemma in_class_app (c d : cclass) (x : char) :
  in_class (c ++ d) x = in_class c x || in_class d x.
Proof. apply existsb_app. Qed.

Lemma free_of_union (c d : cclass) (s : jstring) :
  free_of (c ++ d) s = free_of c s && free_of d s.
Proof.
  induction s as [|x s IH]; [reflexivity|].
  unfold free_of in *; simpl. rewrite IH, in_class_app, negb_orb.
  destruct (in_class c x), (in_class d x), (forallb _ s), (forallb _ s);
    reflexivity.
Qed.

Lemma free_of_remove_all (c d : cclass) (s : jstring) :
  free_of c s = true -> free_of c (remove_all d s) = true.
Proof.
  unfold free_of, remove_all; rewrite !forallb_forall.
  intros H x Hx. apply filter_In in Hx as [Hx _]. auto.
Qed.

Lemma digits_not_plus (a : string) (s : jstring) :
  forallb (in_class digit) s = true ->
  startsWith (js (String "+" a)) s = false.
Proof.
  change (js (String "+" a)) with (43%N :: js a).
  destruct s as [|x s]; [reflexivity|]. cbn [startsWith forallb].
  intros H; apply andb_true_iff in H as [Hx _].
  replace (N.eqb 43 x) with false; [reflexivity|].
  symmetry; apply N.eqb_neq; intros <-; discriminate Hx.
Qed.

Lemma digits_no_paren (s : jstring) :
  forallb (in_class digit) s = true -> includes 40%N s = false.
Proof.
  induction s as [|x s IH]; [reflexivity|].
  unfold includes in *; cbn [existsb forallb].
  intros H; apply andb_true_iff in H as [Hx Hs].
  rewrite (IH Hs), orb_false_r.
  apply N.eqb_neq; intros <-; discriminate Hx.
Qed.

Lemma forallb_skipn {A} (f : A -> bool) (n : nat) (s : list A) :
  forallb f s = true -> forallb f (skipn n s) = true.
Proof.
  revert s; induction n as [|n IH]; intros [|x s] H; simpl; auto.
  simpl in H; apply andb_true_iff in H as [_ H]; auto.
Qed.

Lemma forallb_firstn {A} (f : A -> bool) (n : nat) (s : list A) :
  forallb f s = true -> forallb f (firstn n s) = true.
Proof.
  revert s; induction n as [|n IH]; intros [|x s] H; simpl; auto.
  simpl in H; apply andb_true_iff in H as [Hx H].
  rewrite Hx; simpl; apply IH; exact H.
Qed.

(** A pattern that is a literal followed by digits. *)
Lemma lang_dial_digits (a : string) (r : regex) (s : jstring) :
  regex_within digit r = true ->
  lang (Seq (lit a) r) s ->
  exists t, s = js a ++ t /\ forallb (in_class digit) t = true.
Proof.
  intros W L. apply lang_seq_inv in L as (s1 & s2 & -> & L1 & L2).
  apply lang_lit_inv in L1 as ->.
  exists s2; split; [reflexivity | apply (lang_within _ _ _ W L2)].
Qed.

(** The shape of a number one of the two UK patterns accepts, when it is
    free of white space, hyphens, parentheses and dots: [+44] and digits,
    or digits only. *)
Lemma UK_plain_shape (pat : regex) (s : jstring) :
  pat = UK_mobile \/ pat = UK_landline ->
  lang pat s ->
  free_of (space_hyphen ++ parens_dot) s = true ->
  (exists t, s = js "+44" ++ t /\ forallb (in_class digit) t = true)
  \/ forallb (in_class digit) s = true.
Proof.
  intros Hp L F. apply (lang_prune _ _ _ L) in F. clear L.
  assert (S : exists X Y T,
             prune (space_hyphen ++ parens_dot) pat
             = Seq (Alt (Seq (lit "+44") X) Y) T
             /\ regex_within digit X = true
             /\ regex_within digit Y = true
             /\ regex_within digit T = true).
  { destruct Hp as [-> | ->]; repeat eexists; reflexivity. }
  destruct S as (X & Y & T & E & WX & WY & WT). rewrite E in F.
  apply lang_seq_inv in F as (p & q & -> & Hp' & Hq).
  pose proof (lang_within _ _ _ WT Hq) as Dq.
  apply lang_alt_inv in Hp' as [H|H].
  - left. destruct (lang_dial_digits _ _ _ WX H) as (t & -> & Dt).
    exists (t ++ q); split; [apply eq_sym, app_assoc|].
    rewrite forallb_app, Dt, Dq; reflexivity.
  - right. rewrite forallb_app, (lang_within _ _ _ WY H), Dq; reflexivity.
Qed.

(** X5.  For IN, and for any country when the input is written without
    parentheses and dots, the [formatted] field of a valid result is in
    canonical international form: the dial code, then digits only. *)
Theorem valid_plain_canonical (raw country type c : jstring)
    (r : ValidationResult) :
  validatePhoneNumber (VString raw) country type = Ret r ->
  isValid r = VBool true ->
  formatted r = VString c ->
  country = js "IN" \/ free_of parens_dot raw = true ->
  is_canonical country c = true.
Proof.
  intros Hv Hr Hf Hplain.
  destruct (valid_pattern _ _ _ _ Hv Hr) as (-> & p & pat & Hc & _ & Hin & L).
  injection Hf as <-.
  assert (F : country <> js "IN" ->
              free_of (space_hyphen ++ parens_dot) (clean raw) = true).
  { intros Hn. destruct Hplain as [E|Hplain]; [contradiction|].
    rewrite free_of_union, clean_free.
    apply (free_of_remove_all _ _ _ Hplain). }
  destruct Hc as [[-> ->]|[[-> ->]|[-> ->]]]; simpl in Hin.
  - (* IN *)
    rewrite formatPhoneNumber_IN, is_canonical_IN.
    destruct Hin as [Hin|[Hin|[Hin|[]]]]; injection Hin as <-.
    + pose proof (lang_within digit IN_mobile _ eq_refl L) as D.
      rewrite (digits_not_plus _ _ D), startsWith_app. exact D.
    + pose proof (lang_within digit IN_landline _ eq_refl L) as D.
      rewrite (digits_not_plus _ _ D), startsWith_app. exact D.
    + destruct (lang_dial_digits "+91" (cat [Chr d6_9; rep 9 (Chr digit)])
                  _ eq_refl L) as (t & -> & D).
      rewrite !startsWith_app. exact D.
  - (* US *)
    rewrite formatPhoneNumber_US, is_canonical_US.
    destruct Hin as [Hin|[Hin|[Hin|[]]]]; try discriminate Hin;
      injection Hin as <-.
    + assert (Fc : free_of (space_hyphen ++ parens_dot) (clean raw) = true)
        by (apply F; discriminate).
      apply (lang_prune _ _ _ L) in Fc.
      pose proof (lang_within digit
                    (prune (space_hyphen ++ parens_dot) US_mobile)
                    _ eq_refl Fc) as D.
      apply lang_length in Fc.
      assert (Len : List.length (clean raw) = 10)
        by (revert Fc; generalize (List.length (clean raw)); intros n Fc;
            vm_compute in Fc; lia).
      rewrite (digits_not_plus _ _ D), (digits_no_paren _ D), Len.
      simpl andb; cbv iota. rewrite ?startsWith_app. exact D.
    + destruct (lang_dial_digits "+1"
                  (cat [Chr d2_9; rep 2 (Chr digit); Chr d2_9;
                        rep 6 (Chr digit)])
                  _ eq_refl L) as (t & -> & D).
      rewrite !startsWith_app. exact D.
  - (* UK *)
    rewrite formatPhoneNumber_UK, is_canonical_UK.
    assert (Fc : free_of (space_hyphen ++ parens_dot) (clean raw) = true)
      by (apply F; discriminate).
    assert (Hp : pat = UK_mobile \/ pat = UK_landline).
    { destruct Hin as [Hin|[Hin|[Hin|[]]]]; try discriminate Hin;
        injection Hin as <-; auto. }
    destruct (UK_plain_shape _ _ Hp L Fc) as [(t & -> & D)|D].
    + rewrite !startsWith_app. exact D.
    + rewrite (digits_not_plus _ _ D).
      destruct (startsWith (js "0") (clean raw));
        rewrite startsWith_app;
        [apply (forallb_skipn _ 1 _ D) | exact D].
Qed.

Lemma valid_plain_canonical_witness :
  is_canonical (js "UK") (js "+447123456789") = true.
Proof.
  apply (valid_plain_canonical (js "07123 456-789") (js "UK") (js "mobile")
           (js "+447123456789")
           (accepted_result (VBool true) (js "+447123456789")));
    try reflexivity.
  right; reflexivity.
Defined.

(** ** The canonicaliser is idempotent *)

(** X6.  Canonicalising twice is canonicalising once, for every string and
    every country code. *)
Theorem formatPhoneNumber_idempotent (s country : jstring) :
  formatPhoneNumber (formatPhoneNumber s country) country
  = formatPhoneNumber s country.
Proof.
  unfold formatPhoneNumber.
  destruct (str_eqb country (js "IN")).
  { destruct (startsWith (js "+91") s) eqn:P; [rewrite P; reflexivity|].
    rewrite startsWith_app; reflexivity. }
  destruct (str_eqb country (js "US")).
  { destruct (startsWith (js "+1") s) eqn:P; [rewrite P; reflexivity|].
    destruct (includes 40%N s && includes 41%N s) eqn:I;
      [rewrite startsWith_app; reflexivity|].
    destruct (Nat.eqb (List.length s) 10) eqn:L;
      [rewrite startsWith_app; reflexivity|].
    rewrite P, I, L; reflexivity. }
  destruct (str_eqb country (js "UK")).
  { destruct (startsWith (js "+44") s) eqn:P; [rewrite P; reflexivity|].
    destruct (startsWith (js "0") s); rewrite startsWith_app; reflexivity. }
  destruct (startsWith (js "+") s) eqn:P; [rewrite P; reflexivity|].
  rewrite startsWith_app; reflexivity.
Qed.

(** The canonicaliser leaves a canonical string as it is. *)
Lemma formatPhoneNumber_canonical (country c : jstring) :
  is_canonical country c = true -> formatPhoneNumber c country = c.
Proof.
  intros H. destruct (is_canonical_inv _ _ H) as (dial & ds & -> & _ & Hd).
  destruct Hd as [[-> ->]|[[-> ->]|[-> ->]]]; reflexivity.
Qed.

(** X7.  The canonical form is a fixed point of validation: under the
    conditions of the round trip through mode ['raw'], validating the
    canonical form [c] gives a valid result whose [formatted] is [c]
    again. *)
Theorem canonical_fixed_point (raw country type c : jstring)
    (r : ValidationResult) :
  validatePhoneNumber (VString raw) country type = Ret r ->
  isValid r = VBool true ->
  formatted r = VString c ->
  is_canonical country c = true ->
  ~ (country = js "IN" /\ test IN_landline (clean raw) = true) ->
  validatePhoneNumber (VString c) country type
  = Ret (accepted_result (VBool true) c).
Proof.
  intros Hv Hr Hf Hc Hn.
  destruct (valid_pattern _ _ _ _ Hv Hr) as (-> & p & pat & Hp & Ha & _ & _).
  injection Hf as <-.
  destruct (canonical_kept _ _ Hc) as (_ & Kc & Kn).
  rewrite validate_string by exact Kn. rewrite Kc.
  assert (G : get PHONE_PATTERNS country = Own (Patterns p))
    by (destruct Hp as [[-> ->]|[[-> ->]|[-> ->]]]; reflexivity).
  rewrite G. cbv zeta.
  assert (A : accepts (Own (Patterns p)) type
                (formatPhoneNumber (clean raw) country) = VBool true).
  { destruct Hp as [[-> ->]|[[-> ->]|[-> ->]]].
    - apply reaccept_IN; [exact Ha|].
      destruct (test IN_landline (clean raw)) eqn:L; [|reflexivity].
      exfalso; apply Hn; auto.
    - apply reaccept_US; assumption.
    - apply reaccept_UK; assumption. }
  rewrite A, (formatPhoneNumber_canonical _ _ Hc). reflexivity.
Qed.

Lemma canonical_fixed_point_witness :
  validatePhoneNumber (VString (js "+447123456789")) (js "UK") (js "mobile")
  = Ret (accepted_result (VBool true) (js "+447123456789")).
Proof.
  apply (canonical_fixed_point (js "07123 456789") (js "UK") (js "mobile")
           (js "+447123456789")
           (accepted_result (VBool true) (js "+447123456789")));
    try reflexivity.
  intros [H _]; vm_compute in H; discriminate H.
Defined.

(** ** How the classes overlap *)

Lemma validates_accepts (x country type : jstring) :
  validates x country type ->
  accepts (get PHONE_PATTERNS country) type (clean x) = VBool true.
Proof.
  intros (r & Hv & Hr).
  destruct (validate_valid_inv _ _ _ _ Hv Hr)
    as (s & patterns & E & _ & <- & _ & Ha & _).
  injection E as <-. exact Ha.
Qed.

Lemma IN_mobile_landline_disjoint (x : jstring) :
  ~ (validates x (js "IN") (js "mobile")
     /\ validates x (js "IN") (js "landline")).
Proof.
  intros [Hm Hl].
  apply validates_accepts in Hm, Hl.
  change (get PHONE_PATTERNS (js "IN")) with (Own (Patterns IN_patterns))
    in Hm, Hl.
  apply accepts_true_iff in Hm, Hl.
  destruct Hl as [[E _]|[[_ Hl]|[E _]]]; try (cbv in E; discriminate E).
  destruct Hm as [[_ Hm]|[[E _]|[E _]]]; try (cbv in E; discriminate E).
  unfold IN_patterns, matches, mobile, landline, withCountryCode in Hm, Hl.
  apply test_lang, lang_length in Hl.
  apply orb_true_iff in Hm as [Hm|Hm]; apply test_lang, lang_length in Hm;
    revert Hm Hl; generalize (List.length (clean x)); intros n Hm Hl;
    vm_compute in Hm, Hl; lia.
Qed.

Lemma IN_accepts_boolean (type s : jstring) :
  accepts (Own (Patterns IN_patterns)) type s = VBool true
  \/ accepts (Own (Patterns IN_patterns)) type s = VBool false.
Proof.
  unfold accepts; cbn [field IN_patterns mobile landline withCountryCode
                       and_test test_or_false].
  repeat match goal with
         | |- context [if ?b then _ else _] => destruct b
         end;
    repeat match goal with
           | |- context [test ?r ?s] => destruct (test r s)
           end;
    unfold js_or; cbn [truthy]; auto.
Qed.

Lemma IN_rejected (x type : jstring) :
  x <> [] ->
  ~ validates x (js "IN") type ->
  validatePhoneNumber (VString x) (js "IN") type
  = Ret (rejected_result (VBool false) type (js "IN")).
Proof.
  intros Hx Hn.
  assert (V := validate_string x (js "IN") type Hx).
  change (get PHONE_PATTERNS (js "IN")) with (Own (Patterns IN_patterns)) in V.
  cbv beta iota zeta in V.
  destruct (IN_accepts_boolean type (clean x)) as [E|E]; rewrite E in V.
  - exfalso; apply Hn. unfold validates. rewrite V.
    eexists; split; reflexivity.
  - exact V.
Qed.

(** X8.  For IN the classes mobile and landline exclude each other: a number
    that validates as one is rejected, with [isValid: false], as the
    other. *)
Theorem IN_mobile_or_landline (x : jstring) :
  (validates x (js "IN") (js "mobile") ->
   validatePhoneNumber (VString x) (js "IN") (js "landline")
   = Ret (rejected_result (VBool false) (js "landline") (js "IN")))
  /\ (validates x (js "IN") (js "landline") ->
      validatePhoneNumber (VString x) (js "IN") (js "mobile")
      = Ret (rejected_result (VBool false) (js "mobile") (js "IN"))).
Proof.
  assert (N : forall t, validates x (js "IN") t -> x <> []).
  { intros t (r & Hv & Hr).
    destruct (validate_valid_inv _ _ _ _ Hv Hr) as (s & _ & E & Hs & _).
    injection E as <-. exact Hs. }
  split; intros H; apply IN_rejected; try exact (N _ H);
    intros H'; apply (IN_mobile_landline_disjoint x); auto.
Qed.

Lemma IN_mobile_or_landline_witness :
  validatePhoneNumber (VString (js "9876543210")) (js "IN") (js "landline")
  = Ret (rejected_result (VBool false) (js "landline") (js "IN"))
  /\ validatePhoneNumber (VString (js "22123456")) (js "IN") (js "mobile")
     = Ret (rejected_result (VBool false) (js "mobile") (js "IN")).
Proof.
  split.
  - apply (proj1 (IN_mobile_or_landline (js "9876543210"))).
    exists (accepted_result (VBool true) (js "+919876543210")).
    split; reflexivity.
  - apply (proj2 (IN_mobile_or_landline (js "22123456"))).
    exists (accepted_result (VBool true) (js "+9122123456")).
    split; reflexivity.
Defined.

Ltac split_digits :=
  repeat match goal with
         | H : forallb _ (_ :: _) = true |- _ => cbn [forallb] in H
         | H : _ && _ = true |- _ => apply andb_true_iff in H as [? H]
         end.

Ltac digits_goal :=
  cbn [forallb];
  repeat match goal with
         | H : in_class digit ?x = true |- context [in_class digit ?x] =>
             rewrite H
         end;
  reflexivity.

Ltac three_chars L s :=
  let a := fresh "a" in let b := fresh "b" in let c := fresh "c" in
  destruct s as [|a [|b [|c [|? ?]]]]; try discriminate L; clear L.

(** X9.  Every UK number that validates as mobile and is written without
    parentheses also validates as landline: after [+44] or the trunk 0 the
    landline pattern takes any ten digits that do not begin with 0. *)
Theorem UK_mobile_is_landline (x : jstring) :
  validates x (js "UK") (js "mobile") ->
  free_of (one "(" ++ one ")") x = true ->
  validates x (js "UK") (js "landline").
Proof.
  intros Hm F.
  assert (Hx : x <> []).
  { destruct Hm as (r & Hv & Hr).
    destruct (validate_valid_inv _ _ _ _ Hv Hr) as (s & _ & E & Hs & _).
    injection E as <-. exact Hs. }
  apply validates_accepts in Hm.
  change (get PHONE_PATTERNS (js "UK")) with (Own (Patterns UK_patterns)) in Hm.
  apply accepts_true_iff in Hm.
  destruct Hm as [[_ Hm]|[[E _]|[E _]]]; try (cbv in E; discriminate E).
  unfold UK_patterns, matches, mobile, withCountryCode in Hm.
  rewrite orb_false_r in Hm. apply test_lang in Hm.
  assert (T : test UK_landline (clean x) = true).
  { assert (Fc : free_of (space_hyphen ++ one "(" ++ one ")") (clean x) = true).
    { rewrite free_of_union, clean_free.
      apply (free_of_remove_all _ _ _ F). }
    apply (lang_prune _ _ _ Hm) in Fc. clear Hm F Hx.
    change (prune (space_hyphen ++ one "(" ++ one ")") UK_mobile)
      with (Seq (Alt (cat [lit "+44"; Eps; lit "7"; rep 3 (Chr digit)])
                     (cat [Eps; lit "07"; rep 3 (Chr digit); Eps]))
                (cat [Eps; rep 3 (Chr digit); Eps; rep 3 (Chr digit)])) in Fc.
    revert Fc; generalize (clean x); intros cl Fc. cbn [cat] in Fc.
    apply lang_seq_inv in Fc as (p & q & -> & Hp & Hq).
    apply lang_seq_inv in Hq as (q0 & q1 & -> & Hq0 & Hq).
    apply lang_eps_inv in Hq0 as ->.
    apply lang_seq_inv in Hq as (e3 & q2 & -> & He & Hq).
    apply lang_seq_inv in Hq as (q3 & q4 & -> & Hq3 & Hq).
    apply lang_eps_inv in Hq3 as ->.
    apply lang_seq_inv in Hq as (f3 & q5 & -> & Hf & Hq).
    apply lang_eps_inv in Hq as ->.
    apply lang_rep_chr_inv in He as [Le De], Hf as [Lf Df].
    three_chars Le e3. three_chars Lf f3.
    apply test_lang. unfold UK_landline; cbn [cat].
    apply lang_alt_inv in Hp as [Hp|Hp].
    - apply lang_seq_inv in Hp as (p0 & p1 & -> & Hp0 & Hp).
      apply lang_lit_inv in Hp0 as ->.
      apply lang_seq_inv in Hp as (p2 & p3 & -> & Hp2 & Hp).
      apply lang_eps_inv in Hp2 as ->.
      apply lang_seq_inv in Hp as (p4 & p5 & -> & Hp4 & Hp).
      apply lang_lit_inv in Hp4 as ->.
      apply lang_seq_inv in Hp as (d3 & p6 & -> & Hd & Hp).
      apply lang_eps_inv in Hp as ->.
      apply lang_rep_chr_inv in Hd as [Ld Dd].
      three_chars Ld d3. split_digits.
      match goal with
      | |- lang _ ((_ ++ _ ++ _ ++ [?a; ?b; ?c] ++ _)
                   ++ _ ++ [?d; ?e; ?f] ++ _ ++ [?g; ?h; ?i] ++ _) =>
          change (lang
                    (Seq (Alt (Seq (lit "+44")
                                 (Seq (Opt (Chr space))
                                    (Seq (Chr d1_9)
                                       (Seq (rep 2 (Chr digit)) Eps))))
                              (Seq (Opt (lit "("))
                                 (Seq (lit "0")
                                    (Seq (Chr d1_9)
                                       (Seq (rep 2 (Chr digit))
                                          (Seq (Opt (lit ")")) Eps))))))
                         (Seq (Opt (Chr space))
                            (Seq (rep 3 (Chr digit))
                               (Seq (Opt (Chr space))
                                  (Seq (rep 4 (Chr digit)) Eps)))))
                    ((js "+44" ++ [] ++ [55%N] ++ [a; b] ++ [])
                     ++ [] ++ [c; d; e] ++ [] ++ [f; g; h; i] ++ []))
      end.
      apply lang_seq; [apply lang_alt_l|];
        repeat apply lang_seq; auto with lang;
        try (apply lang_chr; reflexivity);
        apply lang_rep_chr; try reflexivity; digits_goal.
    - apply lang_seq_inv in Hp as (p0 & p1 & -> & Hp0 & Hp).
      apply lang_eps_inv in Hp0 as ->.
      apply lang_seq_inv in Hp as (p4 & p5 & -> & Hp4 & Hp).
      apply lang_lit_inv in Hp4 as ->.
      apply lang_seq_inv in Hp as (d3 & p6 & -> & Hd & Hp).
      apply lang_seq_inv in Hp as (p7 & p8 & -> & Hp7 & Hp).
      apply lang_eps_inv in Hp7 as ->. apply lang_eps_inv in Hp as ->.
      apply lang_rep_chr_inv in Hd as [Ld Dd].
      three_chars Ld d3. split_digits.
      match goal with
      | |- lang _ ((_ ++ _ ++ [?a; ?b; ?c] ++ _)
                   ++ _ ++ [?d; ?e; ?f] ++ _ ++ [?g; ?h; ?i] ++ _) =>
          change (lang
                    (Seq (Alt (Seq (lit "+44")
                                 (Seq (Opt (Chr space))
                                    (Seq (Chr d1_9)
                                       (Seq (rep 2 (Chr digit)) Eps))))
                              (Seq (Opt (lit "("))
                                 (Seq (lit "0")
                                    (Seq (Chr d1_9)
                                       (Seq (rep 2 (Chr digit))
                                          (Seq (Opt (lit ")")) Eps))))))
                         (Seq (Opt (Chr space))
                            (Seq (rep 3 (Chr digit))
                               (Seq (Opt (Chr space))
                                  (Seq (rep 4 (Chr digit)) Eps)))))
                    (([] ++ js "0" ++ [55%N] ++ [a; b] ++ [] ++ [])
                     ++ [] ++ [c; d; e] ++ [] ++ [f; g; h; i] ++ []))
      end.
      apply lang_seq; [apply lang_alt_r|];
        repeat apply lang_seq; auto with lang;
        try (apply lang_chr; reflexivity);
        apply lang_rep_chr; try reflexivity; digits_goal. }
  assert (A : accepts (Own (Patterns UK_patterns)) (js "landline") (clean x)
              = VBool true).
  { apply accepts_true_iff. right; left. split; [reflexivity | exact T]. }
  unfold validates. rewrite validate_string by exact Hx.
  change (get PHONE_PATTERNS (js "UK")) with (Own (Patterns UK_patterns)).
  cbv beta iota zeta. rewrite A. eexists; split; reflexivity.
Qed.

Lemma UK_mobile_is_landline_witness :
  validates (js "07123 456789") (js "UK") (js "landline").
Proof.
  apply UK_mobile_is_landline; [|reflexivity].
  exists (accepted_result (VBool true) (js "+447123456789")).
  split; reflexivity.
Defined.

(** ** The display modes on a canonical number *)

Lemma render_national (s country : jstring) (cf : formatter) :
  s <> [] ->
  formatPhoneNumberWithOptions s country (js "national") cf
  = Ret (VString (extractNationalNumber s country)).
Proof.
  intros H; destruct s as [|x s]; [contradiction|].
  unfold formatPhoneNumberWithOptions; simpl is_empty; cbv iota.
  destruct cf; reflexivity.
Qed.

Lemma regroup {A} (n m : nat) (l : list A) :
  firstn n l ++ firstn m (skipn n l) ++ skipn (n + m) l = l.
Proof.
  rewrite Nat.add_comm, <- skipn_skipn, firstn_skipn, firstn_skipn.
  reflexivity.
Qed.

(** X10.  Mode ['national'] takes the dial code off a canonical number and
    nothing else: the dial code in front of what it returns is the number
    again, and what it returns is digits only. *)
Theorem national_round_trip (country c : jstring) (cf : formatter) :
  is_canonical country c = true ->
  exists dial n,
    own_property countryCodes country = Some dial
    /\ formatPhoneNumberWithOptions c country (js "national") cf
       = Ret (VString n)
    /\ dial ++ n = c
    /\ forallb (in_class digit) n = true.
Proof.
  intros H. destruct (canonical_kept _ _ H) as (_ & _ & Hn).
  rewrite render_national by exact Hn.
  destruct (is_canonical_inv _ _ H) as (dial & ds & -> & D & Hd).
  exists dial, ds.
  destruct Hd as [[-> ->]|[[-> ->]|[-> ->]]]; repeat split; auto.
Qed.

Lemma national_round_trip_witness :
  exists dial n,
    own_property countryCodes (js "US") = Some dial
    /\ formatPhoneNumberWithOptions (js "+15552345678") (js "US")
         (js "national") no_formatter
       = Ret (VString n)
    /\ dial ++ n = js "+15552345678"
    /\ forallb (in_class digit) n = true.
Proof.
  apply (national_round_trip (js "US") (js "+15552345678") no_formatter).
  reflexivity.
Defined.

Lemma raw_form_firstn (n : nat) (s : jstring) :
  forallb (in_class digit) s = true -> raw_form (firstn n s) = firstn n s.
Proof. intros D; apply raw_form_digits, forallb_firstn, D. Qed.

Lemma raw_form_skipn (n : nat) (s : jstring) :
  forallb (in_class digit) s = true -> raw_form (skipn n s) = skipn n s.
Proof. intros D; apply raw_form_digits, forallb_skipn, D. Qed.

(** What mode ['auto'] adds to a canonical number is white space,
    parentheses and a hyphen only. *)
Lemma auto_raw_form (country c : jstring) :
  is_canonical country c = true ->
  raw_form (formatPhoneNumberAuto c country) = c.
Proof.
  intros H.
  destruct (canonical_kept _ _ H) as (Kr & _ & _).
  destruct (is_canonical_inv _ _ H) as (dial & ds & E & D & Hd).
  destruct Hd as [[-> ->]|[[-> ->]|[-> ->]]]; subst c.
  - change (formatPhoneNumberAuto (js "+91" ++ ds) (js "IN"))
      with (js "+91 " ++ ds).
    rewrite raw_form_app, (raw_form_digits _ D). reflexivity.
  - change (formatPhoneNumberAuto (js "+1" ++ ds) (js "US"))
      with (if Nat.eqb (List.length ds) 10
            then js "+1 (" ++ firstn 3 ds ++ js ") "
                 ++ firstn 3 (skipn 3 ds) ++ js "-" ++ skipn 6 ds
            else js "+1" ++ ds).
    destruct (Nat.eqb (List.length ds) 10); [|exact Kr].
    rewrite !raw_form_app, (raw_form_firstn 3 _ D),
      (raw_form_firstn 3 _ (forallb_skipn _ 3 _ D)), (raw_form_skipn 6 _ D).
    change (raw_form (js "+1 (")) with (js "+1").
    change (raw_form (js ") ")) with (@nil char).
    change (raw_form (js "-")) with (@nil char).
    cbn [app]. rewrite <- (regroup 3 3 ds) at 4. reflexivity.
  - change (formatPhoneNumberAuto (js "+44" ++ ds) (js "UK"))
      with (if Nat.eqb (List.length ds) 10
            then js "+44 " ++ firstn 4 ds ++ js " "
                 ++ firstn 3 (skipn 4 ds) ++ js " " ++ skipn 7 ds
            else js "+44" ++ ds).
    destruct (Nat.eqb (List.length ds) 10); [|exact Kr].
    rewrite !raw_form_app, (raw_form_firstn 4 _ D),
      (raw_form_firstn 3 _ (forallb_skipn _ 4 _ D)), (raw_form_skipn 7 _ D).
    change (raw_form (js "+44 ")) with (js "+44").
    change (raw_form (js " ")) with (@nil char).
    cbn [app]. rewrite <- (regroup 4 3 ds) at 4. reflexivity.
Qed.

(** X11.  Mode ['auto'] loses nothing of a canonical number: rendering it under
    ['auto'] and the result under ['raw'] gives the number back. *)
Theorem auto_then_raw (country c : jstring) (cf : formatter) :
  is_canonical country c = true ->
  exists shown,
    formatPhoneNumberWithOptions c country (js "auto") cf
    = Ret (VString shown)
    /\ formatPhoneNumberWithOptions shown country (js "raw") cf
       = Ret (VString c).
Proof.
  intros H. destruct (canonical_kept _ _ H) as (_ & _ & Hn).
  exists (formatPhoneNumberAuto c country). split.
  - rewrite render_auto. destruct c; [contradiction | reflexivity].
  - rewrite render_raw, (auto_raw_form _ _ H). reflexivity.
Qed.

Lemma auto_then_raw_witness :
  exists shown,
    formatPhoneNumberWithOptions (js "+15552345678") (js "US") (js "auto")
      no_formatter
    = Ret (VString shown)
    /\ formatPhoneNumberWithOptions shown (js "US") (js "raw") no_formatter
       = Ret (VString (js "+15552345678")).
Proof.
  apply (auto_then_raw (js "US") (js "+15552345678") no_formatter).
  reflexivity.
Defined.

(** X12.  What mode ['raw'] returns has no white space, hyphen or parenthesis
    left; rendering it under ['raw'] again, or cleaning it as the
    validator does, changes nothing. *)
Theorem raw_is_stable (s country : jstring) (cf : formatter) :
  exists out,
    formatPhoneNumberWithOptions s country (js "raw") cf = Ret (VString out)
    /\ free_of space_hyphen_parens out = true
    /\ formatPhoneNumberWithOptions out country (js "raw") cf
       = Ret (VString out)
    /\ clean out = out.
Proof.
  exists (raw_form s). rewrite !render_raw.
  pose proof (remove_all_free space_hyphen_parens s) as F.
  fold (raw_form s) in F.
  repeat split; [exact F | |].
  - unfold raw_form at 1. rewrite (remove_all_kept _ _ F). reflexivity.
  - apply remove_all_kept, kept_by_clean_all, F.
Qed.

(** ** When the entry point throws *)

Lemma render_throws (s country format : jstring) (cf : formatter) (e : exn) :
  formatPhoneNumberWithOptions s country format cf = Throw e ->
  format = js "custom"
  /\ exists f, cf = Function f /\ f s country = Throw e.
Proof.
  unfold formatPhoneNumberWithOptions.
  destruct (is_empty s); [discriminate|].
  destruct (str_eqb format (js "custom")) eqn:E, cf as [f|v];
    try (repeat match goal with
                | |- context [if ?b then _ else _] => destruct b
                end; discriminate).
  intros H. apply str_eqb_eq in E. split; [exact E|]. exists f; auto.
Qed.

(** [formatPhone] returns its argument, or what the renderer makes of a
    non-empty string. *)
Lemma formatPhone_cases (raw : value) (country format : jstring)
    (cf : formatter) :
  formatPhone raw country format cf = Ret raw
  \/ exists c, c <> []
               /\ formatPhone raw country format cf
                  = formatPhoneNumberWithOptions c country format cf.
Proof.
  unfold formatPhone.
  destruct (truthy raw) eqn:T; [|left; reflexivity]. simpl negb; cbv iota.
  destruct (validate_returns raw country (js "any")) as (r & Hv).
  rewrite Hv; simpl bind.
  destruct (validate_verdict _ _ _ _ Hv) as [E|[E|E]];
    [|rewrite E; left; reflexivity|rewrite E; left; reflexivity].
  destruct (validate_valid_inv _ _ _ _ Hv E)
    as (s & patterns & -> & Hs & <- & _ & Ha & ->).
  pose proof (formatPhoneNumber_nonempty _ country
                (accepts_nonempty _ _ _ Ha)) as Hc.
  right. exists (formatPhoneNumber (clean s) country). split; [exact Hc|].
  simpl. unfold js_or; simpl.
  destruct (formatPhoneNumber (clean s) country); [contradiction|].
  reflexivity.
Qed.

(** X13.  [formatPhone] throws only what the custom formatter throws: if it
    throws, the mode is ['custom'], the formatter is a function, and the
    function threw that on a non-empty string and the country. *)
Theorem formatPhone_throws (raw : value) (country format : jstring)
    (cf : formatter) (e : exn) :
  formatPhone raw country format cf = Throw e ->
  format = js "custom"
  /\ exists f c, cf = Function f /\ c <> [] /\ f c country = Throw e.
Proof.
  intros H.
  destruct (formatPhone_cases raw country format cf) as [E|(c & Hc & E)];
    rewrite E in H; [discriminate H|].
  destruct (render_throws _ _ _ _ _ H) as (Hf & f & -> & Hthrow).
  split; [exact Hf|]. exists f, c; auto.
Qed.

Lemma formatPhone_throws_witness :
  js "custom" = js "custom"
  /\ exists f c,
       Function (fun _ _ => Throw TypeError) = Function f
       /\ c <> [] /\ f c (js "IN") = Throw TypeError.
Proof.
  apply (formatPhone_throws (VString (js "9876543210")) (js "IN")
           (js "custom") (Function (fun _ _ => Throw TypeError)) TypeError).
  reflexivity.
Defined.

(** ** The lookup functions *)

(** X14.  [getPhonePatterns] returns [null] for exactly the country codes the
    validator reports as unsupported. *)
Theorem getPhonePatterns_null (country : jstring) :
  getPhonePatterns country = Missing
  <-> (forall raw type,
          raw <> [] ->
          validatePhoneNumber (VString raw) country type
          = Ret (unsupported_result country)).
Proof.
  unfold getPhonePatterns; split.
  - intros G raw type Hraw. apply validate_unsupported; assumption.
  - intros H.
    assert (K := H (js "1") (js "mobile") ltac:(discriminate)).
    rewrite validate_string in K by discriminate.
    destruct (get PHONE_PATTERNS country); [exfalso|exfalso|reflexivity];
      cbv beta iota zeta in K;
      match type of K with
      | context [truthy ?v] => destruct (truthy v)
      end;
      apply (f_equal (fun o => match o with
                               | Ret r => error r
                               | Throw _ => VUndefined
                               end)) in K;
      cbv in K; discriminate K.
Qed.

Ltac by_key k key :=
  let E := fresh "E" in
  destruct (str_eqb k key) eqn:E; [apply str_eqb_eq in E; subst key|].

Lemma get_own {A} (o : list (jstring * A)) (key : jstring) (a : A) :
  get o key = Own a <-> own_property o key = Some a.
Proof.
  unfold get. destruct (own_property o key) as [b|].
  - split; intros H; injection H as <-; reflexivity.
  - destruct (own_property Object_prototype key) as [[text len]|];
      split; discriminate.
Qed.

(** X15.  [getFormatExamples] returns an array for exactly the six pairs of the
    examples table, and then the array listed there; for every other
    country or class it returns [null] or something that is not an
    array. *)
Theorem getFormatExamples_table (country type : jstring) (l : list jstring) :
  getFormatExamples country type = Own l
  <-> In (country, type, l) example_lists.
Proof.
  split.
  - unfold getFormatExamples.
    destruct (get FORMAT_PLACEHOLDERS country) as [info| |] eqn:G;
      try discriminate.
    apply get_own in G. intros H; apply get_own in H.
    revert G H. unfold FORMAT_PLACEHOLDERS, examples_object, own_property.
    by_key (js "IN") country; [|by_key (js "US") country;
                                 [|by_key (js "UK") country; [|discriminate]]];
      intros G; injection G as <-;
      (by_key (js "mobile") type; [|by_key (js "landline") type;
                                     [|discriminate]]);
      intros H; injection H as <-; simpl; auto 10.
  - unfold example_lists; simpl.
    intros H.
    repeat (destruct H as [H|H]; [injection H as <- <- <-; reflexivity|]).
    destruct H.
Qed.

(** X16.  The format metadata and the pattern registry cover the same
    countries: each has a record, respectively a pattern set, for IN, US
    and UK and for no other country code. *)
Theorem tables_cover_same_countries (country : jstring) :
  ((exists info, getCountryFormatInfo country = Own info)
   <-> In country CountryCode)
  /\ ((exists p, getPhonePatterns country = Own (Patterns p))
      <-> In country CountryCode).
Proof.
  split; split.
  - intros (info & H). apply get_own in H. revert H.
    unfold FORMAT_PLACEHOLDERS, own_property.
    by_key (js "IN") country; [simpl; auto|].
    by_key (js "US") country; [simpl; auto|].
    by_key (js "UK") country; [simpl; auto|].
    discriminate.
  - intros H. repeat (destruct H as [<-|H]; [eexists; reflexivity|]).
    destruct H.
  - intros (p & H).
    destruct (get_PHONE_PATTERNS_own _ _ H)
      as [[-> _]|[[-> _]|[[-> _]|[_ E]]]]; simpl; auto.
    discriminate E.
  - intros H. repeat (destruct H as [<-|H]; [eexists; reflexivity|]).
    destruct H.
Qed.

(** * The middleware *)

(** ** Objects as maps *)

Lemma own_set_same {A} (o : list (jstring * A)) (key : jstring) (a : A) :
  own_property (set_property o key a) key = Some a.
Proof.
  induction o as [|[k b] o IH]; simpl.
  - rewrite (proj2 (str_eqb_eq key key) eq_refl); reflexivity.
  - destruct (str_eqb k key) eqn:E; simpl; rewrite E; [reflexivity | exact IH].
Qed.

Lemma own_set_other {A} (o : list (jstring * A)) (key k' : jstring) (a : A) :
  k' <> key ->
  own_property (set_property o key a) k' = own_property o k'.
Proof.
  intros N. induction o as [|[k b] o IH]; simpl.
  - destruct (str_eqb key k') eqn:E; [|reflexivity].
    apply str_eqb_eq in E; congruence.
  - destruct (str_eqb k key) eqn:E; simpl.
    + apply str_eqb_eq in E; subst k.
      destruct (str_eqb key k') eqn:E'; [|reflexivity].
      apply str_eqb_eq in E'; congruence.
    + rewrite IH; reflexivity.
Qed.

Lemma get_set_same {A} (o : list (jstring * A)) (key : jstring) (a : A) :
  get (set_property o key a) key = Own a.
Proof. apply get_own, own_set_same. Qed.

Lemma get_set_other {A} (o : list (jstring * A)) (key k' : jstring) (a : A) :
  k' <> key -> get (set_property o key a) k' = get o k'.
Proof. intros N; unfold get; rewrite (own_set_other _ _ _ _ N); reflexivity. Qed.

(** ** Blank strings *)

Lemma trimStart_empty (s : jstring) :
  trimStart s = [] <-> forallb (in_class space) s = true.
Proof.
  induction s as [|x s IH]; simpl; [tauto|].
  destruct (in_class space x); simpl; [exact IH|].
  split; discriminate.
Qed.

Lemma trimStart_suffix (s : jstring) :
  exists p, s = p ++ trimStart s /\ forallb (in_class space) p = true.
Proof.
  induction s as [|x s (p & E & F)]; simpl; [exists []; auto|].
  destruct (in_class space x) eqn:Hx.
  - exists (x :: p); simpl; rewrite Hx, F; split; [f_equal; exact E | reflexivity].
  - exists []; auto.
Qed.

(** [s.trim() === ''] exactly when [s] is made of white space only. *)
Lemma trim_empty (s : jstring) :
  is_empty (trim s) = true <-> forallb (in_class space) s = true.
Proof.
  unfold trim. split.
  - intros H.
    assert (E : trimStart (rev (trimStart s)) = []).
    { destruct (trimStart (rev (trimStart s))) as [|y t] eqn:E; [reflexivity|].
      simpl in H. destruct (rev t ++ [y]) eqn:R; [|discriminate H].
      destruct (rev t); discriminate R. }
    apply trimStart_empty in E. rewrite forallb_forall in E.
    destruct (trimStart_suffix s) as (p & Es & F).
    rewrite Es, forallb_app, F. simpl.
    apply forallb_forall. intros x Hx. apply E, in_rev.
    rewrite rev_involutive; exact Hx.
  - intros H. apply trimStart_empty in H. rewrite H. reflexivity.
Qed.

Lemma not_blank_nonempty (s : jstring) :
  is_empty (trim s) = false -> s <> [].
Proof. intros H ->. discriminate H. Qed.

(** ** What the middleware does with a field *)

(** On a field that holds a string which is not blank, the middleware
    validates; what it does next depends on the result alone. *)
Lemma try_string (fieldName : jstring) (o : settings)
    (body : list (jstring * value)) (errs : option (list FieldError))
    (s : jstring) (r : ValidationResult) :
  own_property body fieldName = Some (VString s) ->
  is_empty (trim s) = false ->
  validatePhoneNumber (VString s) (s_country o) (s_type o) = Ret r ->
  phoneValidator_try fieldName o
    {| req_body := Some body; req_validationErrors := errs |}
  = if negb (truthy (isValid r)) then
      Thrown (ValidationError
                (if is_string (errorType r) (js "required")
                 then m_required (s_errors o)
                 else if is_string (errorType r) (js "invalidLength")
                 then m_invalidLength (s_errors o)
                 else if is_string (errorType r) (js "invalidFormat")
                 then m_invalidFormat (s_errors o)
                 else or_message (s_customMessage o) (m_invalid (s_errors o)))
                fieldName (VString s))
    else if truthy (isValid r) && truthy (formatted r) then
      match as_string (formatted r) with
      | Throw e => Thrown (OtherError e)
      | Ret number =>
          match formatPhoneNumberWithOptions number (s_country o)
                  (s_format o) (s_customFormatter o) with
          | Throw e => Thrown (OtherError e)
          | Ret shown =>
              Completed {| req_body := Some (set_property body fieldName shown);
                           req_validationErrors := errs |}
          end
      end
    else Completed {| req_body := Some body; req_validationErrors := errs |}.
Proof.
  intros G T Hv. pose proof (not_blank_nonempty _ T) as Hs.
  apply get_own in G.
  unfold phoneValidator_try; cbn [req_body req_validationErrors].
  rewrite G. destruct s as [|x s]; [contradiction|].
  cbn [truthy is_empty negb as_string]. cbv beta iota zeta.
  rewrite T, Hv. reflexivity.
Qed.

(** A result that is not valid carries the error type ['invalidFormat'],
    unless the input was empty or not a string. *)
Lemma invalid_errorType (s country type : jstring) (r : ValidationResult) :
  s <> [] ->
  validatePhoneNumber (VString s) country type = Ret r ->
  isValid r <> VBool true ->
  truthy (isValid r) = false
  /\ errorType r = VString (js "invalidFormat").
Proof.
  intros Hs Hv Hr.
  split.
  - destruct (validate_verdict _ _ _ _ Hv) as [E|[E|E]];
      [contradiction | rewrite E; reflexivity | rewrite E; reflexivity].
  - rewrite validate_string in Hv by exact Hs.
    destruct (get PHONE_PATTERNS country);
      try (injection Hv as <-; reflexivity);
      cbv zeta in Hv;
      match type of Hv with
      | context [truthy ?v] => destruct (truthy v) eqn:T
      end;
      injection Hv as <-; try reflexivity;
      apply truthy_accepts in T; simpl in Hr; contradiction.
Qed.

(** X17.  Success.  When the field holds a string that is not blank and
    validates, and the renderer returns [shown] for its canonical form,
    the middleware calls [next()] once it has put [shown] in the field;
    every other field of the body, and [req.validationErrors], are as they
    were. *)
Theorem phoneValidator_success (fieldName : jstring) (o : settings)
    (body : list (jstring * value)) (errs : option (list FieldError))
    (s c : jstring) (r : ValidationResult) (shown : value) :
  own_property body fieldName = Some (VString s) ->
  is_empty (trim s) = false ->
  validatePhoneNumber (VString s) (s_country o) (s_type o) = Ret r ->
  isValid r = VBool true ->
  formatted r = VString c ->
  formatPhoneNumberWithOptions c (s_country o) (s_format o)
    (s_customFormatter o) = Ret shown ->
  phoneValidator fieldName o
    {| req_body := Some body; req_validationErrors := errs |}
  = Next {| req_body := Some (set_property body fieldName shown);
            req_validationErrors := errs |}
  /\ get (set_property body fieldName shown) fieldName = Own shown
  /\ forall k, k <> fieldName ->
               get (set_property body fieldName shown) k = get body k.
Proof.
  intros G T Hv Hr Hf Hshown.
  split; [|split; [apply get_set_same | intros k; apply get_set_other]].
  unfold phoneValidator. rewrite (try_string _ _ _ _ _ _ G T Hv).
  destruct (validate_valid_inv _ _ _ _ Hv Hr)
    as (s' & patterns & E & _ & <- & _ & Ha & ->).
  injection E as <-. injection Hf as <-.
  pose proof (formatPhoneNumber_nonempty _ (s_country o)
                (accepts_nonempty _ _ _ Ha)) as Hc.
  cbn [isValid formatted accepted_result truthy negb andb as_string].
  destruct (formatPhoneNumber (clean s) (s_country o)) as [|y t] eqn:F;
    [contradiction|].
  cbn [is_empty negb]. cbv iota. rewrite Hshown. reflexivity.
Qed.

Lemma phoneValidator_success_witness :
  phoneValidator (js "phone") (sample_settings true None)
    {| req_body := Some [(js "name", VString (js "A"));
                         (js "phone", VString (js " 98765 43210 "))];
       req_validationErrors := None |}
  = Next {| req_body :=
              Some (set_property
                      [(js "name", VString (js "A"));
                       (js "phone", VString (js " 98765 43210 "))]
                      (js "phone") (VString (js "+91 9876543210")));
            req_validationErrors := None |}
  /\ get (set_property
            [(js "name", VString (js "A"));
             (js "phone", VString (js " 98765 43210 "))]
            (js "phone") (VString (js "+91 9876543210")))
         (js "phone")
     = Own (VString (js "+91 9876543210"))
  /\ forall k, k <> js "phone" ->
               get (set_property
                      [(js "name", VString (js "A"));
                       (js "phone", VString (js " 98765 43210 "))]
                      (js "phone") (VString (js "+91 9876543210"))) k
               = get [(js "name", VString (js "A"));
                      (js "phone", VString (js " 98765 43210 "))] k.
Proof.
  apply (phoneValidator_success (js "phone") (sample_settings true None)
           [(js "name", VString (js "A"));
            (js "phone", VString (js " 98765 43210 "))] None
           (js " 98765 43210 ") (js "+919876543210")
           (accepted_result (VBool true) (js "+919876543210")));
    reflexivity.
Defined.

(** X18.  Rejection.  When the field holds a string that is not blank and does
    not validate, the middleware responds with status 400 and one error:
    the field as path, the configured ['invalidFormat'] message whatever
    the custom message is, and the rejected string as value.  The body is
    left as it was and the error is stored in [req.validationErrors]. *)
Theorem phoneValidator_rejects (fieldName : jstring) (o : settings)
    (body : list (jstring * value)) (errs : option (list FieldError))
    (s : jstring) (r : ValidationResult) :
  own_property body fieldName = Some (VString s) ->
  is_empty (trim s) = false ->
  validatePhoneNumber (VString s) (s_country o) (s_type o) = Ret r ->
  isValid r <> VBool true ->
  phoneValidator fieldName o
    {| req_body := Some body; req_validationErrors := errs |}
  = Responded 400
      {| f_status := js "error";
         f_message := js "Validation failed";
         f_errors := [ {| ev_type := js "field";
                          ev_msg := m_invalidFormat (s_errors o);
                          ev_value := VString s;
                          ev_path := fieldName;
                          ev_location := js "body" |} ] |}
      {| req_body := Some body;
         req_validationErrors :=
           Some [ {| fe_field := fieldName;
                     fe_message := m_invalidFormat (s_errors o);
                     fe_value := VString s |} ] |}.
Proof.
  intros G T Hv Hr.
  unfold phoneValidator. rewrite (try_string _ _ _ _ _ _ G T Hv).
  destruct (invalid_errorType _ _ _ _ (not_blank_nonempty _ T) Hv Hr)
    as [Ht He].
  rewrite Ht, He. reflexivity.
Qed.

Lemma phoneValidator_rejects_witness :
  phoneValidator (js "phone") (sample_settings true (Some (js "custom")))
    {| req_body := Some [(js "phone", VString (js "1234567890"))];
       req_validationErrors := None |}
  = Responded 400
      {| f_status := js "error";
         f_message := js "Validation failed";
         f_errors := [ {| ev_type := js "field";
                          ev_msg := js "Invalid mobile phone number for IN";
                          ev_value := VString (js "1234567890");
                          ev_path := js "phone";
                          ev_location := js "body" |} ] |}
      {| req_body := Some [(js "phone", VString (js "1234567890"))];
         req_validationErrors :=
           Some [ {| fe_field := js "phone";
                     fe_message := js "Invalid mobile phone number for IN";
                     fe_value := VString (js "1234567890") |} ] |}.
Proof.
  apply (phoneValidator_rejects (js "phone")
           (sample_settings true (Some (js "custom")))
           [(js "phone", VString (js "1234567890"))] None (js "1234567890")
           (rejected_result (VBool false) (js "mobile") (js "IN")));
    [reflexivity | reflexivity | reflexivity | discriminate].
Defined.

(** X19.  Absent field.  When the field is missing, falsy, or a string of white
    space only, an optional field lets the request through untouched and a
    required one is answered with status 400 and the custom message, or
    the configured ['required'] message when there is none. *)
Theorem phoneValidator_blank (fieldName : jstring) (o : settings)
    (body : list (jstring * value)) (errs : option (list FieldError))
    (v : value) :
  own_property body fieldName = Some v
  \/ get body fieldName = Missing /\ v = VUndefined ->
  blank v = true ->
  phoneValidator fieldName o
    {| req_body := Some body; req_validationErrors := errs |}
  = if s_required o then
      Responded 400
        {| f_status := js "error";
           f_message := js "Validation failed";
           f_errors := [ {| ev_type := js "field";
                            ev_msg := or_message (s_customMessage o)
                                        (m_required (s_errors o));
                            ev_value := v;
                            ev_path := fieldName;
                            ev_location := js "body" |} ] |}
        {| req_body := Some body;
           req_validationErrors :=
             Some [ {| fe_field := fieldName;
                       fe_message := or_message (s_customMessage o)
                                       (m_required (s_errors o));
                       fe_value := v |} ] |}
    else Next {| req_body := Some body; req_validationErrors := errs |}.
Proof.
  intros G B.
  assert (G' : get body fieldName = Own v
               \/ get body fieldName = Missing /\ v = VUndefined).
  { destruct G as [G|G]; [left; apply get_own; exact G | right; exact G]. }
  clear G. unfold phoneValidator, phoneValidator_try.
  cbn [req_body req_validationErrors].
  destruct G' as [-> | [-> ->]]; cbv beta iota zeta.
  - unfold blank in B.
    destruct (truthy v) eqn:T; cbn [negb] in B |- *; cbv iota.
    + destruct v; try discriminate B. cbn [as_string orb] in B |- *.
      rewrite B. destruct (s_required o); reflexivity.
    + destruct (s_required o); reflexivity.
  - cbn [truthy negb]. destruct (s_required o); reflexivity.
Qed.

Lemma phoneValidator_blank_witness :
  phoneValidator (js "phone") (sample_settings false None)
    {| req_body := Some [(js "phone", VString (js "   "))];
       req_validationErrors := None |}
  = Next {| req_body := Some [(js "phone", VString (js "   "))];
            req_validationErrors := None |}.
Proof.
  apply (phoneValidator_blank (js "phone") (sample_settings false None)
           [(js "phone", VString (js "   "))] None (VString (js "   ")));
    [left; reflexivity | reflexivity].
Defined.

(** X20.  No body, or a field that is not a string.  When [req.body] is absent,
    or the field holds a truthy value that is not a string (a number, an
    object, [true], or what the field name inherits from
    [Object.prototype]), the middleware answers nothing: it passes a
    TypeError to [next] and leaves the request as it was. *)
Theorem phoneValidator_type_error (fieldName : jstring) (o : settings)
    (req : request) :
  req_body req = None
  \/ (exists body,
         req_body req = Some body
         /\ ((exists text len, get body fieldName = Inherited text len)
             \/ exists v, own_property body fieldName = Some v
                          /\ truthy v = true /\ typeof_string v = false)) ->
  phoneValidator fieldName o req = NextError TypeError req.
Proof.
  unfold phoneValidator, phoneValidator_try.
  intros [-> | (body & -> & [(text & len & ->) | (v & G & T & S)])];
    try reflexivity.
  apply get_own in G. rewrite G. cbv beta iota zeta. rewrite T.
  destruct v; try discriminate S; try discriminate T; reflexivity.
Qed.

Lemma phoneValidator_type_error_witness :
  phoneValidator (js "phone") (sample_settings true None)
    {| req_body := Some [(js "phone", VNumber 9876543210)];
       req_validationErrors := None |}
  = NextError TypeError
      {| req_body := Some [(js "phone", VNumber 9876543210)];
         req_validationErrors := None |}.
Proof.
  apply phoneValidator_type_error.
  right. exists [(js "phone", VNumber 9876543210)]. split; [reflexivity|].
  right. exists (VNumber 9876543210). repeat split; reflexivity.
Defined.

(** ** What the middleware never uses, and what it leaves behind *)

Lemma invalid_errorType_any (v : value) (country type : jstring)
    (r : ValidationResult) :
  validatePhoneNumber v country type = Ret r ->
  truthy (isValid r) = false ->
  errorType r = VString (js "required")
  \/ errorType r = VString (js "invalidFormat").
Proof.
  intros Hv T.
  destruct v as [| |b|n| |s|id];
    try (rewrite validate_not_string in Hv by reflexivity;
         injection Hv as <-; left; reflexivity).
  destruct s as [|x s];
    [rewrite validate_empty in Hv; injection Hv as <-; left; reflexivity|].
  right. apply (invalid_errorType (x :: s) country type r);
    [discriminate | exact Hv|].
  intros E; rewrite E in T; discriminate T.
Qed.

(** X21.  The messages ['invalidLength'], ['empty'] and ['invalid'] of the table
    are never used: two middlewares that differ in them only treat every
    request alike. *)
Theorem phoneValidator_unused_messages (fieldName country type : jstring)
    (required : bool) (customMessage : option jstring) (format : jstring)
    (cf : formatter) (msg_required msg_invalidFormat : jstring)
    (l1 e1 i1 l2 e2 i2 : jstring) (req : request) :
  phoneValidator fieldName
    {| s_country := country; s_type := type; s_required := required;
       s_customMessage := customMessage; s_format := format;
       s_customFormatter := cf;
       s_errors := {| m_required := msg_required;
                      m_invalidFormat := msg_invalidFormat;
                      m_invalidLength := l1; m_empty := e1;
                      m_invalid := i1 |} |} req
  = phoneValidator fieldName
      {| s_country := country; s_type := type; s_required := required;
         s_customMessage := customMessage; s_format := format;
         s_customFormatter := cf;
         s_errors := {| m_required := msg_required;
                        m_invalidFormat := msg_invalidFormat;
                        m_invalidLength := l2; m_empty := e2;
                        m_invalid := i2 |} |} req.
Proof.
  unfold phoneValidator. f_equal.
  unfold phoneValidator_try;
    cbn [s_country s_type s_required s_customMessage s_format
         s_customFormatter s_errors m_required m_invalidFormat
         m_invalidLength m_empty m_invalid].
  destruct (req_body req) as [body|]; [|reflexivity].
  destruct (get body fieldName) as [v| |]; try reflexivity.
  cbv beta iota zeta.
  destruct (negb (truthy v)); [reflexivity|].
  destruct (as_string v) as [text|e]; [|reflexivity].
  destruct (is_empty (trim text)); [reflexivity|].
  destruct (validatePhoneNumber v country type) as [r|e] eqn:Hv;
    [|reflexivity].
  destruct (truthy (isValid r)) eqn:T; [reflexivity|].
  cbn [negb]. cbv iota.
  destruct (invalid_errorType_any _ _ _ _ Hv T) as [E|E]; rewrite E;
    reflexivity.
Qed.

Lemma try_thrown_field (fieldName : jstring) (o : settings) (req : request)
    (message field : jstring) (v : value) :
  phoneValidator_try fieldName o req
  = Thrown (ValidationError message field v) ->
  field = fieldName.
Proof.
  unfold phoneValidator_try.
  repeat match goal with
         | |- context [match ?x with _ => _ end] => destruct x
         end;
    intros H; try discriminate H; injection H; auto.
Qed.

Lemma try_completed_errors (fieldName : jstring) (o : settings)
    (req req' : request) :
  phoneValidator_try fieldName o req = Completed req' ->
  req_validationErrors req' = req_validationErrors req.
Proof.
  unfold phoneValidator_try.
  repeat match goal with
         | |- context [match ?x with _ => _ end] => destruct x
         end;
    intros H; try discriminate H; injection H as <-; reflexivity.
Qed.

(** X22.  Whenever the middleware responds, the status is 400, the body of the
    request is as it was, and the response lists one error, for the field
    the middleware was made for, of type ['field'] and location
    ['body']. *)
Theorem phoneValidator_failure_shape (fieldName : jstring) (o : settings)
    (req req' : request) (code : N) (payload : failure) :
  phoneValidator fieldName o req = Responded code payload req' ->
  code = 400%N
  /\ req_body req' = req_body req
  /\ f_status payload = js "error"
  /\ exists message v,
       f_errors payload = [ {| ev_type := js "field";
                               ev_msg := message;
                               ev_value := v;
                               ev_path := fieldName;
                               ev_location := js "body" |} ].
Proof.
  unfold phoneValidator.
  destruct (phoneValidator_try fieldName o req) as [r|[m f v|e]] eqn:E;
    try discriminate.
  apply try_thrown_field in E; subst f.
  intros H; injection H as <- <- <-.
  repeat split. exists m, v; reflexivity.
Qed.

Lemma phoneValidator_failure_shape_witness :
  400%N = 400%N
  /\ req_body {| req_body := Some [(js "phone", VString (js "12"))];
                req_validationErrors :=
                  Some (addError [] (js "phone")
                          (js "Invalid mobile phone number for IN")
                          (VString (js "12"))) |}
     = req_body {| req_body := Some [(js "phone", VString (js "12"))];
                   req_validationErrors := None |}
  /\ f_status (validation_failed
                 (addError [] (js "phone")
                    (js "Invalid mobile phone number for IN")
                    (VString (js "12")))) = js "error"
  /\ exists message v,
       f_errors (validation_failed
                   (addError [] (js "phone")
                      (js "Invalid mobile phone number for IN")
                      (VString (js "12"))))
       = [ {| ev_type := js "field";
              ev_msg := message;
              ev_value := v;
              ev_path := js "phone";
              ev_location := js "body" |} ].
Proof.
  apply (phoneValidator_failure_shape (js "phone") (sample_settings true None)
           {| req_body := Some [(js "phone", VString (js "12"))];
              req_validationErrors := None |}).
  reflexivity.
Defined.

(** X23.  [validateRequest] after [phoneValidator]: on a request the middleware
    answered, [validateRequest] answers the same status and payload; on a
    request the middleware let through and that carried no errors before,
    it calls [next()]. *)
Theorem validateRequest_after (fieldName : jstring) (o : settings)
    (req req' : request) :
  (forall code payload,
      phoneValidator fieldName o req = Responded code payload req' ->
      validateRequest req' = Responded code payload req')
  /\ (phoneValidator fieldName o req = Next req' ->
      req_validationErrors req = None ->
      validateRequest req' = Next req').
Proof.
  unfold phoneValidator.
  destruct (phoneValidator_try fieldName o req) as [r|[m f v|e]] eqn:E;
    split; try discriminate.
  - intros H N; injection H as <-.
    apply try_completed_errors in E.
    unfold validateRequest; rewrite E, N; reflexivity.
  - intros code payload H; injection H as <- <- <-. reflexivity.
Qed.

Lemma validateRequest_after_witness :
  validateRequest
    {| req_body := Some [(js "phone", VString (js "12"))];
       req_validationErrors :=
         Some (addError [] (js "phone")
                 (js "Invalid mobile phone number for IN")
                 (VString (js "12"))) |}
  = Responded 400
      (validation_failed
         (addError [] (js "phone") (js "Invalid mobile phone number for IN")
            (VString (js "12"))))
      {| req_body := Some [(js "phone", VString (js "12"))];
         req_validationErrors :=
           Some (addError [] (js "phone")
                   (js "Invalid mobile phone number for IN")
                   (VString (js "12"))) |}.
Proof.
  apply (proj1 (validateRequest_after (js "phone") (sample_settings true None)
                  {| req_body := Some [(js "phone", VString (js "12"))];
                     req_validationErrors := None |} _)).
  reflexivity.
Defined.

(** ** White space only *)

Lemma clean_blank (s : jstring) :
  forallb (in_class space) s = true -> clean s = [].
Proof.
  induction s as [|x s IH]; [reflexivity|].
  cbn [forallb]. intros H; apply andb_true_iff in H as [Hx Hs].
  unfold clean, remove_all in *. cbn [filter].
  unfold space_hyphen at 1. rewrite in_class_app, Hx. cbn [orb negb].
  apply IH, Hs.
Qed.

(** X24.  A string of white space only is not a missing input for the
    validator: it is rejected with the error type ['invalidFormat'] (the
    middleware treats the same string as an absent field). *)
Theorem validate_whitespace_only (s country type : jstring) :
  s <> [] ->
  forallb (in_class space) s = true ->
  exists r,
    validatePhoneNumber (VString s) country type = Ret r
    /\ isValid r <> VBool true
    /\ errorType r = VString (js "invalidFormat")
    /\ formatted r = VNull
    /\ blank (VString s) = true.
Proof.
  intros Hs Hw.
  destruct (validate_returns (VString s) country type) as (r & Hv).
  exists r.
  assert (Hr : isValid r <> VBool true).
  { intros Hr.
    destruct (validate_valid_inv _ _ _ _ Hv Hr)
      as (s' & patterns & E & _ & <- & _ & Ha & _).
    injection E as <-.
    apply accepts_nonempty in Ha. apply Ha, clean_blank, Hw. }
  split; [exact Hv|]. split; [exact Hr|].
  split; [apply (invalid_errorType _ _ _ _ Hs Hv Hr)|].
  split; [apply (validate_result_shape _ _ _ _ Hv), Hr|].
  unfold blank. apply orb_true_iff; right. apply trim_empty, Hw.
Qed.

Lemma validate_whitespace_only_witness :
  exists r,
    validatePhoneNumber (VString (js "   ")) (js "IN") (js "mobile") = Ret r
    /\ isValid r <> VBool true
    /\ errorType r = VString (js "invalidFormat")
    /\ formatted r = VNull
    /\ blank (VString (js "   ")) = true.
Proof.
  apply validate_whitespace_only; [discriminate | reflexivity].
Defined.

(** ** Instances of the lookup properties *)

Lemma getPhonePatterns_null_witness :
  validatePhoneNumber (VString (js "9876543210")) (js "XX") (js "mobile")
  = Ret (unsupported_result (js "XX")).
Proof.
  apply (proj1 (getPhonePatterns_null (js "XX")));
    [reflexivity | discriminate].
Defined.

Lemma getFormatExamples_table_witness :
  getFormatExamples (js "US") (js "landline")
  = Own (map js ["(555) 123-4567"; "555-123-4567"; "5551234567";
                 "+15551234567"]%string).
Proof.
  apply (proj2 (getFormatExamples_table (js "US") (js "landline") _)).
  right; right; right; left; reflexivity.
Defined.

Lemma tables_cover_same_countries_witness :
  (exists info, getCountryFormatInfo (js "UK") = Own info)
  /\ exists p, getPhonePatterns (js "UK") = Own (Patterns p).
Proof.
  split.
  - apply (proj2 (proj1 (tables_cover_same_countries (js "UK")))).
    right; right; left; reflexivity.
  - apply (proj2 (proj2 (tables_cover_same_countries (js "UK")))).
    right; right; left; reflexivity.
Defined.
